(** * geminiService: the client of the remote text-generation service

    A shallow embedding of [src/services/geminiService.ts] and of the parts
    of the JavaScript runtime it calls ([String.prototype.trim],
    [Array.prototype.slice], [Array.prototype.join], [JSON.parse], property
    reads, [ToBoolean], [Array.isArray]), followed by the properties of its
    two exported operations, [getDatasetInsights] and
    [getVariableSuggestions].

    Conventions.
    - A JavaScript string is a Rocq [string] holding its UTF-8 encoding, so
      the literals of the source are copied as they are.
    - An [async] function is a computation that ends in [Return v] (the
      promise is fulfilled with [v]) or in [Throw e] (it is rejected with
      [e]), and leaves a log of what it did to the outside world: the
      requests it sent and the lines it wrote on the console.
    - The statements that the module runs when it is loaded (the warning
      on a missing key, the construction of the client [ai]) come before
      any call; the two operations see the key and the client as they were
      left, [API_KEY] and [generateContent] below. *)

From Stdlib Require Import String Ascii List ZArith NArith Bool Lia.
From Stdlib Require Import DecimalString.
Import ListNotations.

Local Open Scope list_scope.
Local Open Scope string_scope.

(** ** Strings *)

Module Str.

(** The double quote, which a Rocq literal cannot hold undoubled. *)
Definition dquote : ascii := "034"%char.

(** [lit s] is [s] with every apostrophe turned into a double quote; JSON
    texts are written with it. *)
Fixpoint lit (s : string) : string :=
  match s with
  | EmptyString => EmptyString
  | String c rest => String (if (c =? "'")%char then dquote else c) (lit rest)
  end.

Definition code (c : ascii) : N := N_of_ascii c.

Definition byte_of (n : N) : ascii := ascii_of_N n.

Fixpoint rev_onto (s acc : string) : string :=
  match s with
  | EmptyString => acc
  | String c rest => rev_onto rest (String c acc)
  end.

Definition rev (s : string) : string := rev_onto s EmptyString.

(** [includes hay needle]: [needle] occurs in [hay]. *)
Definition includes (hay needle : string) : Prop :=
  exists before after, hay = before ++ needle ++ after.

(** [startsWith s p], as a boolean. *)
Definition startsWith (s p : string) : bool := String.prefix p s.

(** *** [String.prototype.trim]

    The characters removed are ECMAScript's WhiteSpace and LineTerminator:
    U+0009..U+000D, U+0020, U+00A0, U+1680, U+2000..U+200A, U+2028, U+2029,
    U+202F, U+205F, U+3000 and U+FEFF.  In UTF-8 the first six are one
    byte, U+00A0 is two bytes (C2 A0) and the others three bytes. *)

Definition ws1 (c : ascii) : bool :=
  let n := code c in ((9 <=? n) && (n <=? 13) || (n =? 32))%N.

Definition ws2 (c1 c2 : ascii) : bool :=
  ((code c1 =? 194) && (code c2 =? 160))%N.

Definition ws3 (c1 c2 c3 : ascii) : bool :=
  let a := code c1 in
  let b := code c2 in
  let c := code c3 in
  ((a =? 225) && (b =? 154) && (c =? 128)
   || (a =? 226) && (b =? 128)
      && ((128 <=? c) && (c <=? 138) || (c =? 168) || (c =? 169) || (c =? 175))
   || (a =? 226) && (b =? 129) && (c =? 159)
   || (a =? 227) && (b =? 128) && (c =? 128)
   || (a =? 239) && (b =? 187) && (c =? 191))%N.

Fixpoint trimStart (s : string) : string :=
  match s with
  | EmptyString => s
  | String c1 r1 =>
      if ws1 c1 then trimStart r1
      else
        match r1 with
        | EmptyString => s
        | String c2 r2 =>
            if ws2 c1 c2 then trimStart r2
            else
              match r2 with
              | EmptyString => s
              | String c3 r3 => if ws3 c1 c2 c3 then trimStart r3 else s
              end
        end
  end.

(** The same from the end, on the reversed string: the bytes of a character
    come in the opposite order. *)
Fixpoint trimStartRev (s : string) : string :=
  match s with
  | EmptyString => s
  | String c1 r1 =>
      if ws1 c1 then trimStartRev r1
      else
        match r1 with
        | EmptyString => s
        | String c2 r2 =>
            if ws2 c2 c1 then trimStartRev r2
            else
              match r2 with
              | EmptyString => s
              | String c3 r3 => if ws3 c3 c2 c1 then trimStartRev r3 else s
              end
        end
  end.

Definition trimEnd (s : string) : string := rev (trimStartRev (rev s)).

Definition trim (s : string) : string := trimEnd (trimStart s).

(** *** [Array.prototype.join] on an array of strings *)

Fixpoint join (sep : string) (items : list string) : string :=
  match items with
  | [] => ""
  | [x] => x
  | x :: rest => x ++ sep ++ join sep rest
  end.

(** Decimal rendering of a natural number. *)
Definition ofNat (n : nat) : string := NilEmpty.string_of_uint (Nat.to_uint n).

End Str.

(** ** JavaScript values *)

(** A number that [JSON.parse] reads is held as the decimal it was written
    as, [mantissa * 10 ^ exponent]; the double is the one nearest to it.
    The sign of a zero is not kept. *)
Record Decimal : Type := mkDecimal { mantissa : Z; exponent : Z }.

#[local] Set Warnings "-register-all".

Inductive JsValue : Type :=
| JsUndefined
| JsNull
| JsBoolean (b : bool)
| JsNumber (d : Decimal)
| JsString (s : string)
| JsArray (items : list JsValue)
| JsObject (props : list (string * JsValue)).

(** What is thrown, as the handlers of the module see it, through
    [error instanceof Error ? error.message : String(error)] written into
    a template:
    - an instance of [Error] or of one of its subclasses, with the name of
      its class and the text that its [message] gives;
    - any other value, with the text that [String(value)] gives for it;
    - a value for which that expression itself throws [raised]: an object
      without [toString] such as [Object.create(null)], an object whose
      [toString] throws, an [Error] whose [message] is a symbol or a
      getter that throws. *)
Inductive Thrown : Type :=
| ErrorObject (class : string) (message : string)
| OtherValue (rendered : string)
| Unrenderable (raised : Thrown).

(** [new Error(message)] *)
Definition newError (message : string) : Thrown := ErrorObject "Error" message.

Inductive Completion (A : Type) : Type :=
| Return (value : A)
| Throw (error : Thrown).

Arguments Return {A} value.
Arguments Throw {A} error.

(** [error instanceof Error ? error.message : String(error)], which gives
    a text or throws. *)
Definition detailsOf (error : Thrown) : Completion string :=
  match error with
  | ErrorObject _ message => Return message
  | OtherValue rendered => Return rendered
  | Unrenderable raised => Throw raised
  end.

(** The wording of the errors that the runtime itself throws.
    [syntaxErrorMessage text offset] is the message of the [SyntaxError] of
    [JSON.parse(text)] failing at [offset]; [readErrorMessage base name]
    that of the [TypeError] of reading property [name] of [base], which is
    [null] or [undefined]. *)
Record Engine : Type := mkEngine {
  syntaxErrorMessage : string -> nat -> string;
  readErrorMessage : string -> string -> string
}.

Module Js.

(** The double nearest to a decimal is a zero exactly when the decimal is
    at most [2 ^ -1075] in absolute value: half of the smallest positive
    double, the tie going to the even mantissa, which is zero's. *)
Definition isZero (d : Decimal) : bool :=
  if (mantissa d =? 0)%Z then true
  else if (0 <=? exponent d)%Z then false
  else (Z.abs (mantissa d) * 2 ^ 1075 <=? 10 ^ (- exponent d))%Z.

(** [ToBoolean]: what [!x] negates. *)
Definition ToBoolean (v : JsValue) : bool :=
  match v with
  | JsUndefined | JsNull => false
  | JsBoolean b => b
  | JsNumber d => negb (isZero d)
  | JsString s => negb (s =? "")
  | JsArray _ | JsObject _ => true
  end.

(** [Array.isArray] *)
Definition isArray (v : JsValue) : bool :=
  match v with
  | JsArray _ => true
  | _ => false
  end.

Fixpoint lookup (name : string) (props : list (string * JsValue)) : option JsValue :=
  match props with
  | [] => None
  | (k, v) :: rest => if k =? name then Some v else lookup name rest
  end.

(** [field v name] is [v.name] for a [v] other than [null] and [undefined]
    and a [name] that no built-in prototype defines, as are the two names
    this module reads: an own property of an object, and [undefined] on
    anything else. *)
Definition field (v : JsValue) (name : string) : JsValue :=
  match v with
  | JsObject props =>
      match lookup name props with
      | Some x => x
      | None => JsUndefined
      end
  | _ => JsUndefined
  end.

(** [v.name]: reading a property of [null] or [undefined] throws. *)
Definition get (engine : Engine) (v : JsValue) (name : string) : Completion JsValue :=
  match v with
  | JsNull => Throw (ErrorObject "TypeError" (readErrorMessage engine "null" name))
  | JsUndefined => Throw (ErrorObject "TypeError" (readErrorMessage engine "undefined" name))
  | _ => Return (field v name)
  end.

(** [text.trim()]: calling a method of [undefined] throws. *)
Definition trimOf (engine : Engine) (text : option string) : Completion string :=
  match text with
  | Some s => Return (Str.trim s)
  | None => Throw (ErrorObject "TypeError" (readErrorMessage engine "undefined" "trim"))
  end.

(** [CreateDataProperty]: a key that is already there keeps its place and
    takes the new value. *)
Fixpoint setProp (name : string) (v : JsValue) (props : list (string * JsValue))
  : list (string * JsValue) :=
  match props with
  | [] => [(name, v)]
  | (k, x) :: rest =>
      if k =? name then (k, v) :: rest else (k, x) :: setProp name v rest
  end.

(** [Array.prototype.slice(start, end)]: a negative index counts from the
    end, and both are clamped to the array. *)
Definition relativeIndex (len i : Z) : Z :=
  if (i <? 0)%Z then Z.max (len + i) 0 else Z.min i len.

Definition slice {A : Type} (start stop : Z) (items : list A) : list A :=
  let len := Z.of_nat (length items) in
  let k := relativeIndex len start in
  let final := relativeIndex len stop in
  firstn (Z.to_nat (Z.max (final - k) 0)) (skipn (Z.to_nat k) items).

End Js.

(** ** [JSON.parse]

    A recursive-descent reader of the JSON grammar (ECMA-404), which is what
    [JSON.parse] accepts: the insignificant whitespace is space, tab, line
    feed and carriage return; a string holds no raw control character; a
    number has no leading zero and no bare point or exponent; nothing but
    whitespace follows the value; the last of two equal keys wins. *)

Module JSON.

Import Str Js.

(** The outcome of reading a prefix of the input: a value and what is left,
    or a failure with what was left where it occurred.  The reader of
    values is driven by a counter, [OutOfFuel] being the counter running
    out ([parseValue_fuel] shows that it does not). *)
Inductive Parse (A : Type) : Type :=
| Parsed (value : A) (rest : string)
| Fail (rest : string)
| OutOfFuel.

Arguments Parsed {A} value rest.
Arguments Fail {A} rest.
Arguments OutOfFuel {A}.

Definition isWs (c : ascii) : bool :=
  let n := code c in ((n =? 32) || (n =? 9) || (n =? 10) || (n =? 13))%N.

Fixpoint skipWs (s : string) : string :=
  match s with
  | EmptyString => s
  | String c rest => if isWs c then skipWs rest else s
  end.

(** The rest of a keyword ([true], [false], [null]) after its first letter. *)
Fixpoint keyword (kw : string) (v : JsValue) (s : string) : Parse JsValue :=
  match kw with
  | EmptyString => Parsed v s
  | String k kw' =>
      match s with
      | EmptyString => Fail s
      | String c rest => if (c =? k)%char then keyword kw' v rest else Fail s
      end
  end.

(** *** Numbers *)

Definition isDigit (c : ascii) : bool := ((48 <=? code c) && (code c <=? 57))%N.

Definition digitValue (c : ascii) : Z := Z.of_N (code c) - 48.

(** Reads digits onto [acc]; also counts them. *)
Fixpoint digits (s : string) (acc : Z) (count : Z) : Z * Z * string :=
  match s with
  | EmptyString => (acc, count, s)
  | String c rest =>
      if isDigit c then digits rest (10 * acc + digitValue c)%Z (count + 1)%Z
      else (acc, count, s)
  end.

(** The fraction after the integer part [int]: the digits read so far and
    how many of them follow the point. *)
Definition fraction (int : Z) (s : string) : Parse (Z * Z) :=
  match s with
  | EmptyString => Parsed (int, 0%Z) s
  | String c rest =>
      if (c =? ".")%char then
        let '(m, k, s') := digits rest int 0 in
        if (k =? 0)%Z then Fail rest else Parsed (m, k) s'
      else Parsed (int, 0%Z) s
  end.

Definition exponentPart (s : string) : Parse Z :=
  match s with
  | EmptyString => Parsed 0%Z s
  | String c rest =>
      if ((c =? "e") || (c =? "E"))%char then
        let '(negative, rest') :=
          match rest with
          | EmptyString => (false, rest)
          | String sign r =>
              if (sign =? "-")%char then (true, r)
              else if (sign =? "+")%char then (false, r)
              else (false, rest)
          end in
        let '(e, k, s') := digits rest' 0 0 in
        if (k =? 0)%Z then Fail rest'
        else Parsed (if negative then (- e)%Z else e) s'
      else Parsed 0%Z s
  end.

Definition parseNumber (s : string) : Parse JsValue :=
  let '(negative, s1) :=
    match s with
    | EmptyString => (false, s)
    | String c r => if (c =? "-")%char then (true, r) else (false, s)
    end in
  match s1 with
  | EmptyString => Fail s1
  | String c r1 =>
      if isDigit c then
        let '(int, _, s2) := if (c =? "0")%char then (0%Z, 1%Z, r1) else digits s1 0 0 in
        match fraction int s2 with
        | Parsed (m, k) s3 =>
            match exponentPart s3 with
            | Parsed e s4 =>
                Parsed (JsNumber (mkDecimal (if negative then (- m)%Z else m) (e - k))) s4
            | Fail r => Fail r
            | OutOfFuel => OutOfFuel
            end
        | Fail r => Fail r
        | OutOfFuel => OutOfFuel
        end
      else Fail s1
  end.

(** *** Strings *)

Definition hexValue (c : ascii) : option N :=
  let n := code c in
  if ((48 <=? n) && (n <=? 57))%N then Some (n - 48)%N
  else if ((97 <=? n) && (n <=? 102))%N then Some (n - 87)%N
  else if ((65 <=? n) && (n <=? 70))%N then Some (n - 55)%N
  else None.

Definition hex4 (c1 c2 c3 c4 : ascii) : option N :=
  match hexValue c1, hexValue c2, hexValue c3, hexValue c4 with
  | Some a, Some b, Some c, Some d => Some (((a * 16 + b) * 16 + c) * 16 + d)%N
  | _, _, _, _ => None
  end.

Definition byte (n : N) : ascii := byte_of n.

(** The UTF-8 encoding of a code point (of a lone surrogate too, in the
    same three-byte form). *)
Definition utf8 (cp : N) : string :=
  (if cp <? 128 then String (byte cp) ""
   else if cp <? 2048 then
     String (byte (192 + cp / 64)) (String (byte (128 + cp mod 64)) "")
   else if cp <? 65536 then
     String (byte (224 + cp / 4096))
       (String (byte (128 + (cp / 64) mod 64)) (String (byte (128 + cp mod 64)) ""))
   else
     String (byte (240 + cp / 262144))
       (String (byte (128 + (cp / 4096) mod 64))
          (String (byte (128 + (cp / 64) mod 64)) (String (byte (128 + cp mod 64)) ""))))%N.

Definition isHighSurrogate (u : N) : bool := ((55296 <=? u) && (u <=? 56319))%N.
Definition isLowSurrogate (u : N) : bool := ((56320 <=? u) && (u <=? 57343))%N.

Definition combine (hi lo : N) : N := (65536 + (hi - 55296) * 1024 + (lo - 56320))%N.

(** The character that a one-letter escape stands for. *)
Definition simpleEscape (e : ascii) : option ascii :=
  if (e =? dquote)%char then Some dquote
  else if (e =? "\")%char then Some "\"%char
  else if (e =? "/")%char then Some "/"%char
  else if (e =? "b")%char then Some (byte 8)
  else if (e =? "f")%char then Some (byte 12)
  else if (e =? "n")%char then Some (byte 10)
  else if (e =? "r")%char then Some (byte 13)
  else if (e =? "t")%char then Some (byte 9)
  else None.

Definition prepend (p : string) (r : Parse string) : Parse string :=
  match r with
  | Parsed s rest => Parsed (p ++ s) rest
  | Fail rest => Fail rest
  | OutOfFuel => OutOfFuel
  end.

(** The low half of a surrogate pair, when one is written next. *)
Definition lowEscape (s : string) : option N :=
  match s with
  | String b (String u (String l1 (String l2 (String l3 (String l4 _))))) =>
      if ((b =? "\") && (u =? "u"))%char then
        match hex4 l1 l2 l3 l4 with
        | Some lo => if isLowSurrogate lo then Some lo else None
        | None => None
        end
      else None
  | _ => None
  end.

(** A string after its opening quote, up to the closing one. *)
Fixpoint stringBody (s : string) : Parse string :=
  match s with
  | EmptyString => Fail s
  | String c rest =>
      if (c =? dquote)%char then Parsed "" rest
      else if (c =? "\")%char then
        match rest with
        | EmptyString => Fail rest
        | String e r2 =>
            match simpleEscape e with
            | Some d => prepend (String d "") (stringBody r2)
            | None =>
                if (e =? "u")%char then
                  match r2 with
                  | String h1 (String h2 (String h3 (String h4 r6))) =>
                      match hex4 h1 h2 h3 h4 with
                      | Some hi =>
                          match (if isHighSurrogate hi then lowEscape r6 else None), r6 with
                          | Some lo, String _ (String _ (String _ (String _ (String _ (String _ r12))))) =>
                              prepend (utf8 (combine hi lo)) (stringBody r12)
                          | _, _ => prepend (utf8 hi) (stringBody r6)
                          end
                      | None => Fail r2
                      end
                  | _ => Fail r2
                  end
                else Fail rest
            end
        end
      else if (code c <? 32)%N then Fail s
      else prepend (String c "") (stringBody rest)
  end.

(** *** Values *)

Fixpoint parseValue (fuel : nat) (s : string) : Parse JsValue :=
  match fuel with
  | O => OutOfFuel
  | S fuel' =>
      match skipWs s with
      | EmptyString => Fail EmptyString
      | String c rest =>
          if (c =? "{")%char then
            match skipWs rest with
            | EmptyString => Fail EmptyString
            | String c' rest' =>
                if (c' =? "}")%char then Parsed (JsObject []) rest'
                else parseMembers fuel' rest []
            end
          else if (c =? "[")%char then
            match skipWs rest with
            | EmptyString => Fail EmptyString
            | String c' rest' =>
                if (c' =? "]")%char then Parsed (JsArray []) rest'
                else parseElements fuel' rest []
            end
          else if (c =? dquote)%char then
            match stringBody rest with
            | Parsed str r => Parsed (JsString str) r
            | Fail r => Fail r
            | OutOfFuel => OutOfFuel
            end
          else if (c =? "t")%char then keyword "rue" (JsBoolean true) rest
          else if (c =? "f")%char then keyword "alse" (JsBoolean false) rest
          else if (c =? "n")%char then keyword "ull" JsNull rest
          else if ((c =? "-")%char || isDigit c)%bool then parseNumber (String c rest)
          else Fail (String c rest)
      end
  end

(** The elements of an array after [acc], up to the closing bracket. *)
with parseElements (fuel : nat) (s : string) (acc : list JsValue) : Parse JsValue :=
  match fuel with
  | O => OutOfFuel
  | S fuel' =>
      match parseValue fuel' s with
      | Parsed v rest =>
          match skipWs rest with
          | EmptyString => Fail EmptyString
          | String c rest' =>
              if (c =? ",")%char then parseElements fuel' rest' (acc ++ [v])%list
              else if (c =? "]")%char then Parsed (JsArray (acc ++ [v])%list) rest'
              else Fail (String c rest')
          end
      | Fail r => Fail r
      | OutOfFuel => OutOfFuel
      end
  end

(** The members of an object after [acc], up to the closing brace. *)
with parseMembers (fuel : nat) (s : string) (acc : list (string * JsValue)) : Parse JsValue :=
  match fuel with
  | O => OutOfFuel
  | S fuel' =>
      match skipWs s with
      | EmptyString => Fail EmptyString
      | String q rest =>
          if (q =? dquote)%char then
            match stringBody rest with
            | Parsed key rest1 =>
                match skipWs rest1 with
                | EmptyString => Fail EmptyString
                | String c rest2 =>
                    if (c =? ":")%char then
                      match parseValue fuel' rest2 with
                      | Parsed v rest3 =>
                          match skipWs rest3 with
                          | EmptyString => Fail EmptyString
                          | String c' rest4 =>
                              if (c' =? ",")%char then parseMembers fuel' rest4 (setProp key v acc)
                              else if (c' =? "}")%char then Parsed (JsObject (setProp key v acc)) rest4
                              else Fail (String c' rest4)
                          end
                      | Fail r => Fail r
                      | OutOfFuel => OutOfFuel
                      end
                    else Fail (String c rest2)
                end
            | Fail r => Fail r
            | OutOfFuel => OutOfFuel
            end
          else Fail (String q rest)
      end
  end.

(** What a reader of a prefix owes: it does not stop for want of counter,
    and what it leaves is shorter than [bound]. *)
Definition good {A : Type} (res : Parse A) (bound : nat) : Prop :=
  res <> OutOfFuel /\ forall v r, res = Parsed v r -> String.length r < bound.

(** The counter that [parse] starts from. *)
Definition fuelFor (text : string) : nat := 2 * String.length text + 2.

(** [JSON.parse(text)]: the value, or the offset of the failure. *)
Definition parse (text : string) : JsValue + nat :=
  match parseValue (fuelFor text) text with
  | Parsed v rest =>
      match skipWs rest with
      | EmptyString => inl v
      | String _ _ as remaining => inr (String.length text - String.length remaining)
      end
  | Fail remaining => inr (String.length text - String.length remaining)
  | OutOfFuel => inr (String.length text)
  end.

End JSON.

(** ** The prompts

    The two template literals of the source, character for character, with
    the interpolated texts as arguments. *)

Module Prompt.

Definition insights (columns statsString sampleDataString : string) : string :=
  "
    Eres un analista de datos experto. Tu tarea es proporcionar un análisis conciso y útil de un conjunto de datos para la predicción de ventas.

    Aquí está la información del conjunto de datos:
    1.  **Columnas**: "
  ++ columns ++
  "
    2.  **Estadísticas Descriptivas (para columnas numéricas)**:
        ```json
        "
  ++ statsString ++
  "
        ```
    3.  **Primeras 5 filas de datos**:
        ```json
        "
  ++ sampleDataString ++
  "
        ```

    Por favor, proporciona un análisis que incluya:
    -   Una breve descripción general de los datos.
    -   Posibles relaciones o patrones interesantes que observes entre las variables.
    -   Recomendaciones sobre qué variables podrían ser buenos predictores para un modelo de regresión.
    -   Advertencias sobre posibles problemas como multicolinealidad, valores atípicos (outliers) o la necesidad de transformar alguna variable.

    Formatea tu respuesta en Markdown para una fácil lectura. Sé claro, conciso y orientado a la acción.
    ".

Definition suggestions (columns sampleDataString : string) : string :=
  "
    Analiza los siguientes encabezados de columnas y datos de muestra de un conjunto de datos.
    Tu tarea es actuar como un científico de datos y sugerir la mejor variable dependiente (objetivo) y las mejores variables independientes (predictores) para construir un modelo de predicción de ventas.

    La variable dependiente debe ser la que probablemente represente las ventas (ej. 'ventas', 'ingresos', 'unidades_vendidas').
    Las variables independientes deben ser aquellas que lógicamente podrían influir en la variable de ventas.

    Encabezados: "
  ++ columns ++
  "

    Primeras 5 filas de datos de muestra:
    ```json
    "
  ++ sampleDataString ++
  "
    ```

    Devuelve tu sugerencia únicamente en formato JSON.
    ".

End Prompt.

(** ** The remote service and the outside world *)

(** The schema objects of the SDK that the source builds ([Type.STRING],
    [Type.ARRAY], [Type.OBJECT]). *)
Inductive Schema : Type :=
| STRING (description : option string)
| ARRAY (items : Schema) (description : option string)
| OBJECT (properties : list (string * Schema)) (required : list string).

Record Config : Type := mkConfig {
  responseMimeType : string;
  responseSchema : Schema
}.

(** The argument of [ai.models.generateContent]. *)
Record Request : Type := mkRequest {
  model : string;
  contents : string;
  config : option Config
}.

(** What awaiting [ai.models.generateContent(request)] gives: a response,
    of which the source reads [text], a string, or [undefined] when the
    response has no text in it; or an error thrown by the SDK or the
    transport. *)
Inductive Outcome : Type :=
| Resolved (text : option string)
| Rejected (error : Thrown).

Inductive Event : Type :=
| Network (request : Request)
| ConsoleError (label : string) (error : Thrown).

Definition isNetwork (ev : Event) : bool :=
  match ev with
  | Network _ => true
  | ConsoleError _ _ => false
  end.

(** The number of requests sent, in a log. *)
Definition networkCalls (log : list Event) : nat := length (filter isNetwork log).

(** *** Computations: a completion and the log grown by it *)

Definition Async (A : Type) : Type := list Event -> Completion A * list Event.

Definition ret {A : Type} (a : A) : Async A := fun log => (Return a, log).

Definition throw {A : Type} (e : Thrown) : Async A := fun log => (Throw e, log).

Definition bind {A B : Type} (c : Async A) (k : A -> Async B) : Async B :=
  fun log =>
    match c log with
    | (Return a, log') => k a log'
    | (Throw e, log') => (Throw e, log')
    end.

(** [try { body } catch (error) { handler }] *)
Definition tryCatch {A : Type} (body : Async A) (handler : Thrown -> Async A) : Async A :=
  fun log =>
    match body log with
    | (Return a, log') => (Return a, log')
    | (Throw e, log') => handler e log'
    end.

Definition lift {A : Type} (c : Completion A) : Async A := fun log => (c, log).

Definition emit (ev : Event) : Async unit := fun log => (Return tt, (log ++ [ev])%list).

Declare Scope async_scope.
Delimit Scope async_scope with async.
Notation "x <- c ;; k" := (bind c (fun x => k))
  (at level 61, c at next level, right associativity) : async_scope.
Notation "c ;; k" := (bind c (fun _ => k))
  (at level 61, right associativity) : async_scope.

(** The engine whose wording the examples use: V8's message for a read of
    [null] or [undefined], and for a text that is not JSON its messages of
    the forms [Unexpected token c in JSON at position n] and
    [Unexpected end of JSON input]. *)
Definition v8 : Engine :=
  {| syntaxErrorMessage text offset :=
       match String.get offset text with
       | Some c => "Unexpected token " ++ String c "" ++ " in JSON at position " ++ Str.ofNat offset
       | None => "Unexpected end of JSON input"
       end;
     readErrorMessage base name :=
       "Cannot read properties of " ++ base ++ " (reading '" ++ name ++ "')" |}.

(** ** The module [geminiService] *)

Section Service.

Local Open Scope async_scope.

(** The engine the module runs on. *)
Variable engine : Engine.

(** [process.env.API_KEY]: a string, or [undefined]. *)
Variable API_KEY : option string.

(** [ai.models.generateContent], the one entry of the remote service. *)
Variable generateContent : Request -> Outcome.

(** The types [DataRow] and [DescriptiveStats] of [../types], with
    [JSON.stringify(value, null, 2)] on a statistics object and on an array
    of rows, which on the values of these types gives a string. *)
Context {DataRow DescriptiveStats : Type}.
Variable stringifyStats : DescriptiveStats -> string.
Variable stringifyRows : list DataRow -> string.

(** [!API_KEY] *)
Definition keyMissing : bool :=
  match API_KEY with
  | None => true
  | Some key => key =? ""
  end.

(** [await ai.models.generateContent(request)], then [.text] *)
Definition send (request : Request) : Async (option string) :=
  fun log =>
    (match generateContent request with
     | Resolved text => Return text
     | Rejected error => Throw error
     end, (log ++ [Network request])%list).

(** [JSON.parse(text)] *)
Definition JSON_parse (text : string) : Async JsValue :=
  lift match JSON.parse text with
       | inl v => Return v
       | inr offset => Throw (ErrorObject "SyntaxError" (syntaxErrorMessage engine text offset))
       end.

Definition consoleError (label : string) (error : Thrown) : Async unit :=
  emit (ConsoleError label error).

Definition missingKeyText : string :=
  "Error: La clave API de Gemini no está configurada. Por favor, configúrela en las variables de entorno.".

Definition insightsErrorPrefix : string :=
  "Error al contactar la API de Gemini. Por favor, revisa la consola para más detalles. Detalles: ".

Definition insightsRequest (headers : list string) (stats : DescriptiveStats)
    (sampleData : list DataRow) : Request :=
  let model := "gemini-2.5-flash" in
  let statsString := stringifyStats stats in
  let sampleDataString := stringifyRows sampleData in
  let prompt := Prompt.insights (Str.join ", " headers) statsString sampleDataString in
  {| model := model; contents := prompt; config := None |}.

(** What it returns is a string, [Some text], or the [undefined] that a
    response without text has for [text], [None]. *)
Definition getDatasetInsights (headers : list string) (stats : DescriptiveStats)
    (sampleData : list DataRow) : Async (option string) :=
  if keyMissing then ret (Some missingKeyText)
  else
    tryCatch
      (response <- send (insightsRequest headers stats sampleData) ;;
       ret response)
      (fun error =>
         consoleError "Error calling Gemini API:" error ;;
         details <- lift (detailsOf error) ;;
         ret (Some (insightsErrorPrefix ++ details))).

Definition missingKeyMessage : string := "La clave API de Gemini no está configurada.".

Definition shapeMessage : string := "La respuesta de la IA no tiene el formato esperado.".

Definition suggestionsErrorPrefix : string :=
  "Error al obtener sugerencias de la IA. Detalles: ".

Definition suggestionsConfig : Config :=
  {| responseMimeType := "application/json";
     responseSchema :=
       OBJECT
         [("dependentVar",
           STRING (Some "El nombre de la columna que mejor representa la variable dependiente (ej. ventas)."));
          ("independentVars",
           ARRAY (STRING None)
             (Some "Una lista de nombres de columnas que son buenos predictores para la variable dependiente."))]
         ["dependentVar"; "independentVars"] |}.

Definition suggestionsRequest (headers : list string) (sampleData : list DataRow) : Request :=
  let model := "gemini-2.5-flash" in
  let sampleDataString := stringifyRows (Js.slice 0 5 sampleData) in
  let prompt := Prompt.suggestions (Str.join ", " headers) sampleDataString in
  {| model := model; contents := prompt; config := Some suggestionsConfig |}.

(** The body of the [try] block of [getVariableSuggestions]. *)
Definition suggestionsBody (headers : list string) (sampleData : list DataRow)
  : Async JsValue :=
  response <- send (suggestionsRequest headers sampleData) ;;
  jsonText <- lift (Js.trimOf engine response) ;;
  suggestions <- JSON_parse jsonText ;;
  dependentVar <- lift (Js.get engine suggestions "dependentVar") ;;
  if negb (Js.ToBoolean dependentVar) then throw (newError shapeMessage)
  else
    independentVars <- lift (Js.get engine suggestions "independentVars") ;;
    if negb (Js.isArray independentVars) then throw (newError shapeMessage)
    else ret suggestions.

Definition getVariableSuggestions (headers : list string) (sampleData : list DataRow)
  : Async JsValue :=
  if keyMissing then throw (newError missingKeyMessage)
  else
    tryCatch
      (suggestionsBody headers sampleData)
      (fun error =>
         consoleError "Error calling Gemini API for suggestions:" error ;;
         details <- lift (detailsOf error) ;;
         throw (newError (suggestionsErrorPrefix ++ details))).

End Service.

(** ** A table of text cells

    One instance of the types of [../types], on which the examples run: a
    row maps column names to text cells, listed in the order in which the
    object enumerates them, each name once; a table of text has no numeric
    column, so its statistics object is empty. *)

Module Sample.

Definition Row : Type := list (string * string).

Definition Stats : Type := unit.

Definition nl : string := String "010"%char "".

Definition hexDigit (n : N) : ascii :=
  if (n <? 10)%N then Str.byte_of (48 + n) else Str.byte_of (87 + n).

(** [QuoteJSONString]: the quote, the backslash and the control characters
    are escaped. *)
Definition escape (c : ascii) : string :=
  let n := Str.code c in
  if (c =? Str.dquote)%char then String "\" (String Str.dquote "")
  else if (c =? "\")%char then "\\"
  else if (n =? 8)%N then "\b"
  else if (n =? 12)%N then "\f"
  else if (n =? 10)%N then "\n"
  else if (n =? 13)%N then "\r"
  else if (n =? 9)%N then "\t"
  else if (n <? 32)%N then "\u00" ++ String (hexDigit (n / 16)) (String (hexDigit (n mod 16)) "")
  else String c "".

Fixpoint escapeAll (s : string) : string :=
  match s with
  | EmptyString => ""
  | String c rest => escape c ++ escapeAll rest
  end.

Definition quote (s : string) : string :=
  String Str.dquote (escapeAll s) ++ String Str.dquote "".

(** [JSON.stringify(rows, null, 2)]: a row is an element of the array, so
    its members are indented by four spaces and its brace by two. *)
Definition stringifyMember (member : string * string) : string :=
  "    " ++ quote (fst member) ++ ": " ++ quote (snd member).

Definition stringifyRow (row : Row) : string :=
  match row with
  | [] => "{}"
  | _ => "{" ++ nl ++ Str.join ("," ++ nl) (map stringifyMember row) ++ nl ++ "  }"
  end.

Definition stringifyRows (rows : list Row) : string :=
  match rows with
  | [] => "[]"
  | _ => "[" ++ nl ++ Str.join ("," ++ nl) (map (fun row => "  " ++ stringifyRow row) rows)
         ++ nl ++ "]"
  end.

Definition stringifyStats (stats : Stats) : string := "{}".

(** A remote service that answers every request with [text]. *)
Definition answers (text : string) : Request -> Outcome := fun _ => Resolved (Some text).

(** A remote service that fails every request with [error]. *)
Definition fails (error : Thrown) : Request -> Outcome := fun _ => Rejected error.

Definition headers : list string := ["price"; "sales"].

Definition rows6 : list Row :=
  [ [("price", "10"); ("sales", "7")];
    [("price", "11"); ("sales", "6")];
    [("price", "12"); ("sales", "5")];
    [("price", "13"); ("sales", "4")];
    [("price", "14"); ("sales", "3")];
    [("price", "15"); ("sales", "2")] ].

End Sample.

(** ** What the properties speak of *)

(** The check of [getVariableSuggestions] on the parsed response:
    [suggestions.dependentVar] is truthy and [suggestions.independentVars]
    is an array. *)
Definition shapeValid (v : JsValue) : bool :=
  Js.ToBoolean (Js.field v "dependentVar") && Js.isArray (Js.field v "independentVars").

(** An object with no other property than [dependentVar] and
    [independentVars]. *)
Definition onlySuggestionFields (v : JsValue) : bool :=
  match v with
  | JsObject props =>
      forallb (fun p => (fst p =? "dependentVar") || (fst p =? "independentVars")) props
  | _ => false
  end.

(** How [getVariableSuggestions] ends when [error] is caught after
    [request] was sent: the error is written on the console and a new
    [Error] is thrown, with the details of the first one in its message;
    when the details cannot be had, what they throw goes out instead. *)
Definition rethrown (log : list Event) (request : Request) (error : Thrown)
  : Completion JsValue * list Event :=
  (match detailsOf error with
   | Return details => Throw (newError (suggestionsErrorPrefix ++ details))
   | Throw raised => Throw raised
   end,
   (log ++ [Network request;
            ConsoleError "Error calling Gemini API for suggestions:" error])%list).

(** The value that [String] has nothing to call on, and what V8 throws for
    it: [Object.create(null)]. *)
Definition bareObject : Thrown :=
  Unrenderable (ErrorObject "TypeError" "Cannot convert object to primitive value").

Section Failures.

Variable engine : Engine.
Variable generateContent : Request -> Outcome.

(** [RaisedInside request error]: after [request] is sent, [error] is what
    is thrown inside the [try] block of [getVariableSuggestions], by the
    call itself, by the call of [trim] on a text that is not there, by
    [JSON.parse], by the read of a property of [null], or by the check of
    the shape. *)
Inductive RaisedInside (request : Request) : Thrown -> Prop :=
| TransportFailure (error : Thrown) :
    generateContent request = Rejected error ->
    RaisedInside request error
| ResponseWithoutText :
    generateContent request = Resolved None ->
    RaisedInside request
      (ErrorObject "TypeError" (readErrorMessage engine "undefined" "trim"))
| ResponseParseFailure (text : string) (offset : nat) :
    generateContent request = Resolved (Some text) ->
    JSON.parse (Str.trim text) = inr offset ->
    RaisedInside request
      (ErrorObject "SyntaxError" (syntaxErrorMessage engine (Str.trim text) offset))
| NullResponse (text : string) :
    generateContent request = Resolved (Some text) ->
    JSON.parse (Str.trim text) = inl JsNull ->
    RaisedInside request
      (ErrorObject "TypeError" (readErrorMessage engine "null" "dependentVar"))
| ResponseShapeInvalid (text : string) (v : JsValue) :
    generateContent request = Resolved (Some text) ->
    JSON.parse (Str.trim text) = inl v ->
    v <> JsNull ->
    shapeValid v = false ->
    RaisedInside request (newError shapeMessage).

End Failures.

(** ** Loading the module

    The statements at the top of the file, run once when the module is
    loaded: the warning when [!API_KEY], then the construction of the
    client with the key as it is. *)

Inductive LoadEvent : Type :=
| ConsoleWarn (message : string)
| NewClient (apiKey : option string).

Definition loadModule (API_KEY : option string) : list LoadEvent :=
  ((if keyMissing API_KEY
    then [ConsoleWarn "API_KEY for Gemini is not set in environment variables."]
    else [])
   ++ [NewClient API_KEY])%list.

(** ** Blank text and declared shapes *)

(** A text made of one-byte whitespace only: tabs, line feeds, vertical
    tabs, form feeds, carriage returns and spaces. *)
Fixpoint blank (s : string) : bool :=
  match s with
  | EmptyString => true
  | String c rest => Str.ws1 c && blank rest
  end.

Fixpoint schemaOf (name : string) (properties : list (string * Schema)) : option Schema :=
  match properties with
  | [] => None
  | (k, schema) :: rest => if k =? name then Some schema else schemaOf name rest
  end.

(** [conforms schema v]: the value has the shape that the schema object
    declares to the remote service.  A [STRING] is a string, an [ARRAY] an
    array whose elements conform to [items], an [OBJECT] an object that has
    the [required] properties and whose properties conform to what
    [properties] declares for their names; properties that are not
    declared are let through. *)
Fixpoint conforms (schema : Schema) (v : JsValue) {struct v} : bool :=
  match schema, v with
  | STRING _, JsString _ => true
  | ARRAY items _, JsArray elements => forallb (conforms items) elements
  | OBJECT properties required, JsObject props =>
      forallb (fun name =>
                 match Js.lookup name props with
                 | Some _ => true
                 | None => false
                 end) required
      && forallb (fun p =>
                    match schemaOf (fst p) properties with
                    | Some declared => conforms declared (snd p)
                    | None => true
                    end) props
  | _, _ => false
  end.

(** * Properties *)

(** ** The reader of JSON does not run out of its counter *)

Module JSONFacts.

Import Str Js JSON.

Lemma skipWs_length (s : string) : String.length (skipWs s) <= String.length s.
Proof.
  induction s as [|c s IH]; simpl; [lia|].
  destruct (isWs c); simpl; lia.
Qed.

Lemma skipWs_cons (s : string) (c : ascii) (rest : string) :
  skipWs s = String c rest -> String.length rest < String.length s.
Proof.
  intros H. pose proof (skipWs_length s) as L. rewrite H in L. simpl in L. lia.
Qed.

Lemma keyword_shorter (kw : string) (v : JsValue) (s : string) (x : JsValue) (r : string) :
  keyword kw v s = Parsed x r -> String.length r <= String.length s.
Proof.
  revert s. induction kw as [|k kw IH]; intros s H; simpl in H.
  - inversion H; subst; lia.
  - destruct s as [|c s]; [discriminate|].
    destruct (c =? k)%char; [|discriminate].
    apply IH in H. simpl. lia.
Qed.

Lemma keyword_fuel (kw : string) (v : JsValue) (s : string) : keyword kw v s <> OutOfFuel.
Proof.
  revert s. induction kw as [|k kw IH]; intros s; simpl; [discriminate|].
  destruct s as [|c s]; [discriminate|].
  destruct (c =? k)%char; [apply IH|discriminate].
Qed.

Lemma digits_length (s : string) (acc count m k : Z) (r : string) :
  digits s acc count = (m, k, r) -> String.length r <= String.length s.
Proof.
  revert acc count. induction s as [|c s IH]; intros acc count H; simpl in H.
  - inversion H; subst; simpl; lia.
  - destruct (isDigit c).
    + apply IH in H. simpl. lia.
    + inversion H; subst; simpl; lia.
Qed.

Lemma fraction_shorter (int : Z) (s : string) (x : Z * Z) (r : string) :
  fraction int s = Parsed x r -> String.length r <= String.length s.
Proof.
  unfold fraction. destruct s as [|c s]; intros H.
  - inversion H; subst; lia.
  - destruct (c =? ".")%char.
    + destruct (digits s int 0) as [[m k] s'] eqn:D.
      destruct (k =? 0)%Z; [discriminate|].
      inversion H; subst. apply digits_length in D. simpl. lia.
    + inversion H; subst; lia.
Qed.

Lemma fraction_fuel (int : Z) (s : string) : fraction int s <> OutOfFuel.
Proof.
  unfold fraction. destruct s as [|c s]; [discriminate|].
  destruct (c =? ".")%char; [|discriminate].
  destruct (digits s int 0) as [[m k] s'].
  destruct (k =? 0)%Z; discriminate.
Qed.

Lemma exponentPart_shorter (s : string) (e : Z) (r : string) :
  exponentPart s = Parsed e r -> String.length r <= String.length s.
Proof.
  unfold exponentPart. destruct s as [|c s]; intros H.
  - inversion H; subst; lia.
  - destruct ((c =? "e") || (c =? "E"))%char.
    + destruct (match s with
                | EmptyString => (false, s)
                | String sign r0 =>
                    if (sign =? "-")%char then (true, r0)
                    else if (sign =? "+")%char then (false, r0) else (false, s)
                end) as [negative rest'] eqn:Sg.
      assert (String.length rest' <= String.length s) as L.
      { destruct s as [|sign r0]; [inversion Sg; subst; lia|].
        destruct (sign =? "-")%char; [inversion Sg; subst; simpl; lia|].
        destruct (sign =? "+")%char; inversion Sg; subst; simpl; lia. }
      destruct (digits rest' 0 0) as [[e' k] s'] eqn:D.
      destruct (k =? 0)%Z; [discriminate|].
      inversion H; subst. apply digits_length in D. simpl. lia.
    + inversion H; subst; lia.
Qed.

Lemma exponentPart_fuel (s : string) : exponentPart s <> OutOfFuel.
Proof.
  unfold exponentPart. destruct s as [|c s]; [discriminate|].
  destruct ((c =? "e") || (c =? "E"))%char; [|discriminate].
  destruct (match s with
            | EmptyString => (false, s)
            | String sign r0 =>
                if (sign =? "-")%char then (true, r0)
                else if (sign =? "+")%char then (false, r0) else (false, s)
            end) as [negative rest'].
  destruct (digits rest' 0 0) as [[e' k] s'].
  destruct (k =? 0)%Z; discriminate.
Qed.

Lemma parseNumber_fuel (s : string) : parseNumber s <> OutOfFuel.
Proof.
  unfold parseNumber.
  destruct (match s with
            | EmptyString => (false, s)
            | String c r => if (c =? "-")%char then (true, r) else (false, s)
            end) as [negative s1].
  destruct s1 as [|c r1]; [discriminate|].
  destruct (isDigit c); [|discriminate].
  destruct (if (c =? "0")%char then (0%Z, 1%Z, r1) else digits (String c r1) 0 0)
    as [[int k0] s2].
  pose proof (fraction_fuel int s2) as F.
  destruct (fraction int s2) as [[m k] s3| |]; [|discriminate|congruence].
  pose proof (exponentPart_fuel s3) as E.
  destruct (exponentPart s3); [discriminate|discriminate|congruence].
Qed.

Lemma parseNumber_shorter (s : string) (v : JsValue) (r : string) :
  parseNumber s = Parsed v r -> String.length r < String.length s.
Proof.
  unfold parseNumber.
  destruct (match s with
            | EmptyString => (false, s)
            | String c r => if (c =? "-")%char then (true, r) else (false, s)
            end) as [negative s1] eqn:Sg.
  assert (String.length s1 <= String.length s) as L1.
  { destruct s as [|c0 r0]; [inversion Sg; subst; lia|].
    destruct (c0 =? "-")%char; inversion Sg; subst; simpl; lia. }
  destruct s1 as [|c r1]; [discriminate|].
  destruct (isDigit c) eqn:Dg; [|discriminate].
  destruct (if (c =? "0")%char then (0%Z, 1%Z, r1) else digits (String c r1) 0 0)
    as [[int k0] s2] eqn:I.
  assert (String.length s2 <= String.length r1) as L2.
  { destruct (c =? "0")%char; [inversion I; subst; lia|].
    simpl in I. rewrite Dg in I. apply digits_length in I. exact I. }
  destruct (fraction int s2) as [[m k] s3| |] eqn:F; [|discriminate|discriminate].
  apply fraction_shorter in F.
  destruct (exponentPart s3) as [e s4| |] eqn:E; [|discriminate|discriminate].
  apply exponentPart_shorter in E.
  intros H; inversion H; subst. simpl in L1. lia.
Qed.

Lemma good_Fail {A : Type} (r : string) (bound : nat) : good (@Fail A r) bound.
Proof. split; [discriminate|intros v r' H; discriminate]. Qed.

Lemma good_Parsed {A : Type} (v : A) (r : string) (bound : nat) :
  String.length r < bound -> good (Parsed v r) bound.
Proof. intros L. split; [discriminate|]. intros v' r' H. inversion H; subst. exact L. Qed.

Lemma good_weaken {A : Type} (res : Parse A) (b b' : nat) :
  good res b -> b <= b' -> good res b'.
Proof.
  intros [F L] Le. split; [exact F|]. intros v r H. apply L in H. lia.
Qed.

Lemma good_prepend (p : string) (res : Parse string) (b b' : nat) :
  good res b -> b <= b' -> good (prepend p res) b'.
Proof.
  intros [F L] Le. destruct res as [s rest|rest|]; simpl.
  - apply good_Parsed. specialize (L s rest eq_refl). lia.
  - apply good_Fail.
  - congruence.
Qed.

Lemma stringBody_good_upto (n : nat) :
  forall s, String.length s <= n -> good (stringBody s) (String.length s).
Proof.
  induction n as [|n IH]; intros s Ln.
  - destruct s; [apply good_Fail|simpl in Ln; lia].
  - destruct s as [|c rest]; [apply good_Fail|].
    simpl in Ln. simpl stringBody.
    destruct (c =? dquote)%char; [apply good_Parsed; simpl; lia|].
    destruct (c =? "\")%char.
    + destruct rest as [|e r2]; [apply good_Fail|].
      simpl in Ln.
      destruct (simpleEscape e).
      * apply good_prepend with (b := String.length r2); [apply IH; lia|simpl; lia].
      * destruct (e =? "u")%char; [|apply good_Fail].
        destruct r2 as [|h1 [|h2 [|h3 [|h4 r6]]]]; try apply good_Fail.
        simpl in Ln.
        destruct (hex4 h1 h2 h3 h4) as [hi|]; [|apply good_Fail].
        assert (good (prepend (utf8 hi) (stringBody r6))
                  (String.length (String c (String e (String h1 (String h2 (String h3 (String h4 r6)))))))) as G6.
        { apply good_prepend with (b := String.length r6); [apply IH; lia|simpl; lia]. }
        destruct (if isHighSurrogate hi then lowEscape r6 else None) as [lo|]; [|exact G6].
        destruct r6 as [|a1 [|a2 [|a3 [|a4 [|a5 [|a6 r12]]]]]]; try exact G6.
        simpl in Ln.
        apply good_prepend with (b := String.length r12); [apply IH; lia|simpl; lia].
    + destruct (code c <? 32)%N; [apply good_Fail|].
      apply good_prepend with (b := String.length rest); [apply IH; lia|simpl; lia].
Qed.

Lemma stringBody_good (s : string) : good (stringBody s) (String.length s).
Proof. apply (stringBody_good_upto (String.length s)). lia. Qed.

Lemma good_keyword (kw : string) (v : JsValue) (s : string) (bound : nat) :
  String.length s < bound -> good (keyword kw v s) bound.
Proof.
  intros L. split; [apply keyword_fuel|].
  intros x r H. apply keyword_shorter in H. lia.
Qed.

Lemma good_parseNumber (s : string) (bound : nat) :
  String.length s <= bound -> good (parseNumber s) bound.
Proof.
  intros L. split; [apply parseNumber_fuel|].
  intros x r H. apply parseNumber_shorter in H. lia.
Qed.

#[local] Opaque keyword parseNumber stringBody skipWs.

Lemma parse_good (fuel : nat) :
  (forall s, 2 * String.length s + 1 <= fuel ->
             good (parseValue fuel s) (String.length s))
  /\ (forall s acc, 2 * String.length s + 2 <= fuel ->
                    good (parseElements fuel s acc) (String.length s))
  /\ (forall s acc, 2 * String.length s + 2 <= fuel ->
                    good (parseMembers fuel s acc) (String.length s)).
Proof.
  induction fuel as [|fuel (IHv & IHe & IHm)].
  - repeat split; intros; lia.
  - split; [|split].
    + (* a value *)
      intros s Lf. simpl parseValue.
      destruct (skipWs s) as [|c rest] eqn:W; [apply good_Fail|].
      apply skipWs_cons in W.
      destruct (c =? "{")%char.
      { destruct (skipWs rest) as [|c' rest'] eqn:W'; [apply good_Fail|].
        apply skipWs_cons in W'.
        destruct (c' =? "}")%char; [apply good_Parsed; lia|].
        apply good_weaken with (b := String.length rest); [apply IHm; lia|lia]. }
      destruct (c =? "[")%char.
      { destruct (skipWs rest) as [|c' rest'] eqn:W'; [apply good_Fail|].
        apply skipWs_cons in W'.
        destruct (c' =? "]")%char; [apply good_Parsed; lia|].
        apply good_weaken with (b := String.length rest); [apply IHe; lia|lia]. }
      destruct (c =? dquote)%char.
      { destruct (stringBody_good rest) as [F L].
        destruct (stringBody rest) as [str r|r|]; [|apply good_Fail|congruence].
        apply good_Parsed. specialize (L str r eq_refl). lia. }
      destruct (c =? "t")%char; [apply good_keyword; lia|].
      destruct (c =? "f")%char; [apply good_keyword; lia|].
      destruct (c =? "n")%char; [apply good_keyword; lia|].
      destruct ((c =? "-")%char || isDigit c)%bool; [|apply good_Fail].
      apply good_parseNumber. simpl. lia.
    + (* the elements of an array *)
      intros s acc Lf. simpl parseElements.
      destruct (IHv s) as [F L]; [lia|].
      destruct (parseValue fuel s) as [v rest|r|]; [|apply good_Fail|congruence].
      specialize (L v rest eq_refl).
      destruct (skipWs rest) as [|c rest'] eqn:W; [apply good_Fail|].
      apply skipWs_cons in W.
      destruct (c =? ",")%char.
      { apply good_weaken with (b := String.length rest'); [apply IHe; lia|lia]. }
      destruct (c =? "]")%char; [apply good_Parsed; lia|apply good_Fail].
    + (* the members of an object *)
      intros s acc Lf. simpl parseMembers.
      destruct (skipWs s) as [|q rest] eqn:W; [apply good_Fail|].
      apply skipWs_cons in W.
      destruct (q =? dquote)%char; [|apply good_Fail].
      destruct (stringBody_good rest) as [F L].
      destruct (stringBody rest) as [key rest1|r|]; [|apply good_Fail|congruence].
      specialize (L key rest1 eq_refl).
      destruct (skipWs rest1) as [|c rest2] eqn:W1; [apply good_Fail|].
      apply skipWs_cons in W1.
      destruct (c =? ":")%char; [|apply good_Fail].
      destruct (IHv rest2) as [Fv Lv]; [lia|].
      destruct (parseValue fuel rest2) as [v rest3|r|]; [|apply good_Fail|congruence].
      specialize (Lv v rest3 eq_refl).
      destruct (skipWs rest3) as [|c' rest4] eqn:W3; [apply good_Fail|].
      apply skipWs_cons in W3.
      destruct (c' =? ",")%char.
      { apply good_weaken with (b := String.length rest4); [apply IHm; lia|lia]. }
      destruct (c' =? "}")%char; [apply good_Parsed; lia|apply good_Fail].
Qed.

#[local] Transparent keyword parseNumber stringBody skipWs.

(** The counter that [JSON.parse] starts from is never used up: a failure
    of [parse] is a failure of the text to be JSON. *)
Lemma parseValue_fuel (text : string) : parseValue (fuelFor text) text <> OutOfFuel.
Proof.
  destruct (parse_good (fuelFor text)) as (Hv & _ & _).
  apply Hv. unfold fuelFor. lia.
Qed.

(** [JSON.parse] does not yield [undefined]. *)

Lemma keyword_value (kw : string) (v : JsValue) (s : string) (x : JsValue) (r : string) :
  keyword kw v s = Parsed x r -> x = v.
Proof.
  revert s. induction kw as [|k kw IH]; intros s H; simpl in H.
  - inversion H; reflexivity.
  - destruct s as [|c s]; [discriminate|].
    destruct (c =? k)%char; [eapply IH; eassumption|discriminate].
Qed.

Lemma parseNumber_defined (s : string) (v : JsValue) (r : string) :
  parseNumber s = Parsed v r -> v <> JsUndefined.
Proof.
  unfold parseNumber.
  destruct (match s with
            | EmptyString => (false, s)
            | String c r => if (c =? "-")%char then (true, r) else (false, s)
            end) as [negative s1].
  destruct s1 as [|c r1]; [discriminate|].
  destruct (isDigit c); [|discriminate].
  destruct (if (c =? "0")%char then (0%Z, 1%Z, r1) else digits (String c r1) 0 0)
    as [[int k0] s2].
  destruct (fraction int s2) as [[m k] s3| |]; [|discriminate|discriminate].
  destruct (exponentPart s3); [|discriminate|discriminate].
  intros H; inversion H; discriminate.
Qed.

#[local] Opaque keyword parseNumber stringBody skipWs.

Lemma parse_defined (fuel : nat) :
  (forall s v r, parseValue fuel s = Parsed v r -> v <> JsUndefined)
  /\ (forall s acc v r, parseElements fuel s acc = Parsed v r -> v <> JsUndefined)
  /\ (forall s acc v r, parseMembers fuel s acc = Parsed v r -> v <> JsUndefined).
Proof.
  induction fuel as [|fuel (IHv & IHe & IHm)].
  - repeat split; intros; discriminate.
  - split; [|split].
    + intros s v r. simpl parseValue.
      destruct (skipWs s) as [|c rest]; [discriminate|].
      destruct (c =? "{")%char.
      { destruct (skipWs rest) as [|c' rest']; [discriminate|].
        destruct (c' =? "}")%char; [intros H; inversion H; discriminate|apply IHm]. }
      destruct (c =? "[")%char.
      { destruct (skipWs rest) as [|c' rest']; [discriminate|].
        destruct (c' =? "]")%char; [intros H; inversion H; discriminate|apply IHe]. }
      destruct (c =? dquote)%char.
      { destruct (stringBody rest); intros H; inversion H; discriminate. }
      destruct (c =? "t")%char;
        [intros H; apply keyword_value in H; subst; discriminate|].
      destruct (c =? "f")%char;
        [intros H; apply keyword_value in H; subst; discriminate|].
      destruct (c =? "n")%char;
        [intros H; apply keyword_value in H; subst; discriminate|].
      destruct ((c =? "-")%char || isDigit c)%bool; [apply parseNumber_defined|discriminate].
    + intros s acc v r. simpl parseElements.
      destruct (parseValue fuel s) as [x rest|rest|]; [|discriminate|discriminate].
      destruct (skipWs rest) as [|c rest']; [discriminate|].
      destruct (c =? ",")%char; [apply IHe|].
      destruct (c =? "]")%char; intros H; inversion H; discriminate.
    + intros s acc v r. simpl parseMembers.
      destruct (skipWs s) as [|q rest]; [discriminate|].
      destruct (q =? dquote)%char; [|discriminate].
      destruct (stringBody rest) as [key rest1|rest1|]; [|discriminate|discriminate].
      destruct (skipWs rest1) as [|c rest2]; [discriminate|].
      destruct (c =? ":")%char; [|discriminate].
      destruct (parseValue fuel rest2) as [x rest3|rest3|]; [|discriminate|discriminate].
      destruct (skipWs rest3) as [|c' rest4]; [discriminate|].
      destruct (c' =? ",")%char; [apply IHm|].
      destruct (c' =? "}")%char; intros H; inversion H; discriminate.
Qed.

#[local] Transparent keyword parseNumber stringBody skipWs.

Lemma parse_not_undefined (text : string) : parse text <> inl JsUndefined.
Proof.
  unfold parse.
  destruct (parseValue (fuelFor text) text) as [v rest|rest|] eqn:P; [|discriminate|discriminate].
  destruct (parse_defined (fuelFor text)) as (Hv & _ & _).
  apply Hv in P.
  destruct (skipWs rest); [congruence|discriminate].
Qed.

End JSONFacts.

(** ** [slice(0, 5)] keeps the first five elements *)

Lemma slice_0_5 {A : Type} (items : list A) : Js.slice 0 5 items = firstn 5 items.
Proof.
  unfold Js.slice, Js.relativeIndex.
  change (0 <? 0)%Z with false. change (5 <? 0)%Z with false. cbv iota.
  rewrite (Z.min_l 0) by lia. change (Z.to_nat 0) with 0. rewrite skipn_O.
  replace (Z.to_nat (Z.max (Z.min 5 (Z.of_nat (length items)) - 0) 0))
    with (Nat.min 5 (length items)) by lia.
  rewrite <- firstn_firstn. rewrite firstn_all. reflexivity.
Qed.

Lemma firstn_5_of_more {A : Type} (items : list A) :
  5 < length items ->
  length (firstn 5 items) = 5
  /\ items = (firstn 5 items ++ skipn 5 items)%list
  /\ skipn 5 items <> [].
Proof.
  intros L. split; [|split].
  - rewrite length_firstn. lia.
  - symmetry. apply firstn_skipn.
  - intros E. apply (f_equal (@length A)) in E. rewrite length_skipn in E. simpl in E. lia.
Qed.

(** ** Strings that contain others *)

Lemma append_empty_r (s : string) : s ++ "" = s.
Proof. induction s as [|c s IH]; simpl; [reflexivity|rewrite IH; reflexivity]. Qed.

Lemma includes_prefix (p s : string) : Str.includes (p ++ s) p.
Proof. exists "", s. reflexivity. Qed.

Lemma includes_suffix (p s : string) : Str.includes (p ++ s) s.
Proof. exists p, "". rewrite append_empty_r. reflexivity. Qed.

Lemma append_cancel_l (p a b : string) : p ++ a = p ++ b -> a = b.
Proof.
  induction p as [|c p IH]; simpl; intros H; [exact H|].
  inversion H. apply IH. assumption.
Qed.

Lemma length_append (a b : string) :
  String.length (a ++ b) = String.length a + String.length b.
Proof. induction a as [|c a IH]; simpl; [reflexivity|rewrite IH; reflexivity]. Qed.

Lemma append_cancel_r (a b s : string) : a ++ s = b ++ s -> a = b.
Proof.
  revert b. induction a as [|c a IH]; intros [|c' b] H; simpl in H.
  - reflexivity.
  - apply (f_equal String.length) in H. simpl in H. rewrite length_append in H. lia.
  - apply (f_equal String.length) in H. simpl in H. rewrite length_append in H. lia.
  - inversion H. f_equal. apply IH. assumption.
Qed.

(** The prompt of [getDatasetInsights] determines the serialization of the
    sample that it was built on. *)
Lemma insights_prompt_injective (columns statsString a b : string) :
  Prompt.insights columns statsString a = Prompt.insights columns statsString b -> a = b.
Proof.
  unfold Prompt.insights. intros H.
  do 5 apply append_cancel_l in H.
  apply append_cancel_r in H. exact H.
Qed.

Lemma string_append_assoc (a b c : string) : (a ++ b) ++ c = a ++ b ++ c.
Proof. induction a as [|x a IH]; simpl; [reflexivity|rewrite IH; reflexivity]. Qed.

Lemma includes_after (p s x : string) : Str.includes s x -> Str.includes (p ++ s) x.
Proof.
  intros (before & after & E). exists (p ++ before), after.
  rewrite E. symmetry. apply string_append_assoc.
Qed.

Lemma includes_before (s q x : string) : Str.includes s x -> Str.includes (s ++ q) x.
Proof.
  intros (before & after & E). exists before, (after ++ q).
  rewrite E. rewrite !string_append_assoc. reflexivity.
Qed.

Lemma includes_self (s : string) : Str.includes s s.
Proof. exists "", "". simpl. rewrite append_empty_r. reflexivity. Qed.

(** The prompt of [getVariableSuggestions] determines the serialization
    that it was built on. *)
Lemma suggestions_prompt_injective (columns a b : string) :
  Prompt.suggestions columns a = Prompt.suggestions columns b -> a = b.
Proof.
  unfold Prompt.suggestions. intros H.
  do 3 apply append_cancel_l in H.
  apply append_cancel_r in H. exact H.
Qed.

(** ** The two operations *)

Section Claims.

Variable engine : Engine.
Variable API_KEY : option string.
Variable generateContent : Request -> Outcome.
Context {DataRow DescriptiveStats : Type}.
Variable stringifyStats : DescriptiveStats -> string.
Variable stringifyRows : list DataRow -> string.

Local Abbreviation insights :=
  (getDatasetInsights API_KEY generateContent stringifyStats stringifyRows).
Local Abbreviation insightsReq := (insightsRequest stringifyStats stringifyRows).
Local Abbreviation suggest :=
  (getVariableSuggestions engine API_KEY generateContent stringifyRows).
Local Abbreviation suggestReq := (suggestionsRequest stringifyRows).

(** *** How the runs go *)

Lemma insights_run (headers : list string) (stats : DescriptiveStats)
    (sampleData : list DataRow) (log : list Event) :
  keyMissing API_KEY = false ->
  insights headers stats sampleData log =
    match generateContent (insightsReq headers stats sampleData) with
    | Resolved text =>
        (Return text, (log ++ [Network (insightsReq headers stats sampleData)])%list)
    | Rejected error =>
        (match detailsOf error with
         | Return details => Return (Some (insightsErrorPrefix ++ details))
         | Throw raised => Throw raised
         end,
         (log ++ [Network (insightsReq headers stats sampleData);
                  ConsoleError "Error calling Gemini API:" error])%list)
    end.
Proof.
  intros K. unfold getDatasetInsights. rewrite K.
  unfold tryCatch, bind, send, consoleError, emit, lift, ret.
  destruct (generateContent (insightsReq headers stats sampleData)) as [text|error].
  - reflexivity.
  - rewrite <- app_assoc. destruct (detailsOf error); reflexivity.
Qed.

Lemma suggest_rejected (headers : list string) (sampleData : list DataRow)
    (log : list Event) (error : Thrown) :
  keyMissing API_KEY = false ->
  generateContent (suggestReq headers sampleData) = Rejected error ->
  suggest headers sampleData log = rethrown log (suggestReq headers sampleData) error.
Proof.
  intros K G. unfold getVariableSuggestions. rewrite K.
  unfold tryCatch, suggestionsBody, bind, send. rewrite G.
  unfold consoleError, emit, lift, throw, rethrown. rewrite <- app_assoc.
  destruct (detailsOf error); reflexivity.
Qed.

Lemma suggest_without_text (headers : list string) (sampleData : list DataRow)
    (log : list Event) :
  keyMissing API_KEY = false ->
  generateContent (suggestReq headers sampleData) = Resolved None ->
  suggest headers sampleData log
    = rethrown log (suggestReq headers sampleData)
        (ErrorObject "TypeError" (readErrorMessage engine "undefined" "trim")).
Proof.
  intros K G. unfold getVariableSuggestions. rewrite K.
  unfold tryCatch, suggestionsBody, bind, send. rewrite G.
  unfold lift. cbn [Js.trimOf].
  unfold consoleError, emit, throw, rethrown. rewrite <- app_assoc. reflexivity.
Qed.

Lemma suggest_resolved (headers : list string) (sampleData : list DataRow)
    (log : list Event) (text : string) :
  keyMissing API_KEY = false ->
  generateContent (suggestReq headers sampleData) = Resolved (Some text) ->
  suggest headers sampleData log =
    match JSON.parse (Str.trim text) with
    | inr offset =>
        rethrown log (suggestReq headers sampleData)
          (ErrorObject "SyntaxError" (syntaxErrorMessage engine (Str.trim text) offset))
    | inl v =>
        match Js.get engine v "dependentVar" with
        | Throw error => rethrown log (suggestReq headers sampleData) error
        | Return _ =>
            if shapeValid v
            then (Return v, (log ++ [Network (suggestReq headers sampleData)])%list)
            else rethrown log (suggestReq headers sampleData) (newError shapeMessage)
        end
    end.
Proof.
  intros K G. unfold getVariableSuggestions. rewrite K.
  unfold tryCatch, suggestionsBody, bind, send. rewrite G.
  unfold JSON_parse, lift. cbn [Js.trimOf].
  destruct (JSON.parse (Str.trim text)) as [v|offset].
  - unfold shapeValid.
    destruct v; cbn [Js.get];
      try (unfold consoleError, emit, throw, rethrown; rewrite <- app_assoc; reflexivity);
      (destruct (Js.ToBoolean (Js.field _ "dependentVar")); cbn [negb andb];
       [ destruct (Js.isArray (Js.field _ "independentVars")); cbn [negb]
       | ];
       unfold consoleError, emit, throw, ret, rethrown;
       try rewrite <- app_assoc; reflexivity).
  - unfold consoleError, emit, throw, rethrown. rewrite <- app_assoc. reflexivity.
Qed.

(** The handler does not return. *)
Lemma rethrown_throws (log : list Event) (request : Request) (error : Thrown) :
  exists e, fst (rethrown log request error) = Throw e.
Proof. unfold rethrown. destruct (detailsOf error); eexists; reflexivity. Qed.

Ltac rethrown_absurd R :=
  match type of R with
  | fst (rethrown ?l ?q ?c) = Return _ =>
      let e := fresh "e" in
      let E := fresh "E" in
      destruct (rethrown_throws l q c) as (e & E); rewrite E in R; discriminate R
  end.

(** *** Without a credential *)

(** C1. Whatever the headers, the statistics and the sample, when no
    credential is configured ([API_KEY] is absent, or empty),
    [getDatasetInsights] returns, and does not throw, a readable text that
    starts with the marker [Error], and the log is left as it was: no
    request is sent. *)
Theorem insights_without_credential (headers : list string) (stats : DescriptiveStats)
    (sampleData : list DataRow) (log : list Event) :
  keyMissing API_KEY = true ->
  insights headers stats sampleData log = (Return (Some missingKeyText), log)
  /\ Str.startsWith missingKeyText "Error" = true
  /\ networkCalls (snd (insights headers stats sampleData log)) = networkCalls log.
Proof.
  intros K. unfold getDatasetInsights. rewrite K. unfold ret.
  repeat split; reflexivity.
Qed.

(** C2. Whatever the headers and the sample, when no credential is
    configured, [getVariableSuggestions] throws an [Error] that says so,
    with the log left as it was: no request is sent, and nothing is
    returned in place of the error. *)
Theorem suggestions_without_credential (headers : list string)
    (sampleData : list DataRow) (log : list Event) :
  keyMissing API_KEY = true ->
  suggest headers sampleData log = (Throw (newError missingKeyMessage), log)
  /\ networkCalls (snd (suggest headers sampleData log)) = networkCalls log
  /\ forall v, fst (suggest headers sampleData log) <> Return v.
Proof.
  intros K. unfold getVariableSuggestions. rewrite K. unfold throw.
  repeat split; try reflexivity. intros v. discriminate.
Qed.

(** *** Failures of the remote call *)

(** What is raised inside the [try] block is caught and handled. *)
Lemma suggest_raised (headers : list string) (sampleData : list DataRow)
    (log : list Event) (error : Thrown) :
  keyMissing API_KEY = false ->
  RaisedInside engine generateContent (suggestReq headers sampleData) error ->
  suggest headers sampleData log = rethrown log (suggestReq headers sampleData) error.
Proof.
  intros K R. destruct R as [error G|G|text offset G P|text G P|text v G P N V].
  - apply suggest_rejected; assumption.
  - apply suggest_without_text; assumption.
  - rewrite (suggest_resolved _ _ _ _ K G), P. reflexivity.
  - rewrite (suggest_resolved _ _ _ _ K G), P. reflexivity.
  - rewrite (suggest_resolved _ _ _ _ K G), P, V.
    destruct v; try reflexivity; try congruence.
    exfalso. exact (JSONFacts.parse_not_undefined _ P).
Qed.

(** A run with a credential returns, or ends as the handler ends on what
    was raised inside. *)
Lemma suggest_ends (headers : list string) (sampleData : list DataRow)
    (log : list Event) :
  keyMissing API_KEY = false ->
  (exists v,
      suggest headers sampleData log
        = (Return v, (log ++ [Network (suggestReq headers sampleData)])%list))
  \/ (exists error,
         RaisedInside engine generateContent (suggestReq headers sampleData) error
         /\ suggest headers sampleData log
            = rethrown log (suggestReq headers sampleData) error).
Proof.
  intros K.
  destruct (generateContent (suggestReq headers sampleData)) as [[text|]|error] eqn:G.
  - rewrite (suggest_resolved _ _ _ _ K G).
    destruct (JSON.parse (Str.trim text)) as [v|offset] eqn:P.
    + destruct v as [| |b|d|str|items|props];
        try (cbn [Js.get]; destruct (shapeValid _) eqn:V;
             [ left; eexists; reflexivity
             | right; exists (newError shapeMessage); split;
               [ eapply ResponseShapeInvalid; eauto; discriminate | reflexivity ] ]).
      * exfalso. exact (JSONFacts.parse_not_undefined _ P).
      * right. eexists. split; [eapply NullResponse; eauto|reflexivity].
    + right. eexists. split; [eapply ResponseParseFailure; eauto|reflexivity].
  - right. eexists. split; [apply ResponseWithoutText; exact G|].
    apply suggest_without_text; assumption.
  - right. exists error. split; [apply TransportFailure; exact G|].
    apply suggest_rejected; assumption.
Qed.

(** C3, as the code has it. When the remote call is made and fails with an
    error whose details the handler can write (an [Error] with its
    message, a value that [String] renders), [getDatasetInsights] does not
    throw: what it returns, as the ordinary value, is the text made of the
    fixed prefix followed by those details, which contains both and starts
    with the marker [Error].  A run returns on every path but one: the
    call rejected with a value whose details cannot be written, on which
    what the handler throws goes out. *)
Theorem insights_returns_failures (headers : list string) (stats : DescriptiveStats)
    (sampleData : list DataRow) (log : list Event) :
  ((exists value, fst (insights headers stats sampleData log) = Return value)
   \/ (exists error raised,
          keyMissing API_KEY = false
          /\ generateContent (insightsReq headers stats sampleData) = Rejected error
          /\ detailsOf error = Throw raised
          /\ fst (insights headers stats sampleData log) = Throw raised))
  /\ forall error details,
       keyMissing API_KEY = false ->
       generateContent (insightsReq headers stats sampleData) = Rejected error ->
       detailsOf error = Return details ->
       fst (insights headers stats sampleData log)
         = Return (Some (insightsErrorPrefix ++ details))
       /\ Str.includes (insightsErrorPrefix ++ details) insightsErrorPrefix
       /\ Str.includes (insightsErrorPrefix ++ details) details
       /\ Str.startsWith (insightsErrorPrefix ++ details) "Error" = true.
Proof.
  split.
  - destruct (keyMissing API_KEY) eqn:K.
    + left. exists (Some missingKeyText).
      unfold getDatasetInsights. rewrite K. reflexivity.
    + rewrite (insights_run _ _ _ _ K).
      destruct (generateContent (insightsReq headers stats sampleData)) as [text|error].
      * left. eexists. reflexivity.
      * destruct (detailsOf error) as [details|raised] eqn:D.
        -- left. eexists. reflexivity.
        -- right. exists error, raised. repeat split; reflexivity || assumption.
  - intros error details K G D. rewrite (insights_run _ _ _ _ K), G, D.
    split; [reflexivity|].
    split; [apply includes_prefix|]. split; [apply includes_suffix|reflexivity].
Qed.

(** C4, as the code has it. With a credential, whatever is thrown inside
    [getVariableSuggestions] after the request is sent (by the remote
    call, by [trim] on a response without text, by [JSON.parse], by the
    read of the parsed value, by the check of its shape) is caught and
    written on the console; when its details can be written, one [Error]
    is thrown whose message is the fixed text followed by them; a run that
    does not return ends in the handler, on what was raised inside; and
    every failure, the missing credential too, ends in a throw, none in a
    returned value. *)
Theorem suggestions_failures_rethrown (headers : list string)
    (sampleData : list DataRow) (log : list Event) :
  (keyMissing API_KEY = false ->
   forall error details,
     RaisedInside engine generateContent (suggestReq headers sampleData) error ->
     detailsOf error = Return details ->
     suggest headers sampleData log
       = (Throw (newError (suggestionsErrorPrefix ++ details)),
          (log ++ [Network (suggestReq headers sampleData);
                   ConsoleError "Error calling Gemini API for suggestions:" error])%list))
  /\ (keyMissing API_KEY = false ->
      (exists v, fst (suggest headers sampleData log) = Return v)
      \/ (exists error,
             RaisedInside engine generateContent (suggestReq headers sampleData) error
             /\ match detailsOf error with
                | Return details =>
                    fst (suggest headers sampleData log)
                      = Throw (newError (suggestionsErrorPrefix ++ details))
                | Throw raised => fst (suggest headers sampleData log) = Throw raised
                end))
  /\ (keyMissing API_KEY = false ->
      forall error,
        RaisedInside engine generateContent (suggestReq headers sampleData) error ->
        exists e, fst (suggest headers sampleData log) = Throw e)
  /\ (keyMissing API_KEY = true ->
      exists e, fst (suggest headers sampleData log) = Throw e).
Proof.
  split; [|split; [|split]].
  - intros K error details R D.
    rewrite (suggest_raised _ _ _ _ K R). unfold rethrown. rewrite D. reflexivity.
  - intros K. destruct (suggest_ends headers sampleData log K) as [(v & E)|(error & R & E)].
    + left. exists v. rewrite E. reflexivity.
    + right. exists error. split; [exact R|].
      rewrite E. unfold rethrown. destruct (detailsOf error); reflexivity.
  - intros K error R. rewrite (suggest_raised _ _ _ _ K R). unfold rethrown.
    destruct (detailsOf error); eexists; reflexivity.
  - intros K. exists (newError missingKeyMessage).
    unfold getVariableSuggestions. rewrite K. reflexivity.
Qed.

(** *** The response to a request for suggestions *)

(** C5. With a credential, when the remote call answers the text
    [{"dependentVar":"sales","independentVars":["price","ad_spend"]}],
    [getVariableSuggestions] returns, and does not throw, the object whose
    [dependentVar] is ["sales"] and whose [independentVars] is the array of
    ["price"] and ["ad_spend"]. *)
Theorem suggestions_of_sales_response (headers : list string)
    (sampleData : list DataRow) (log : list Event) :
  keyMissing API_KEY = false ->
  generateContent (suggestReq headers sampleData)
    = Resolved (Some (Str.lit "{'dependentVar':'sales','independentVars':['price','ad_spend']}")) ->
  fst (suggest headers sampleData log)
    = Return (JsObject [("dependentVar", JsString "sales");
                        ("independentVars", JsArray [JsString "price"; JsString "ad_spend"])]).
Proof.
  intros K G. rewrite (suggest_resolved _ _ _ _ K G).
  replace (JSON.parse (Str.trim (Str.lit "{'dependentVar':'sales','independentVars':['price','ad_spend']}")))
    with (@inl JsValue nat
            (JsObject [("dependentVar", JsString "sales");
                       ("independentVars", JsArray [JsString "price"; JsString "ad_spend"])]))
    by (vm_compute; reflexivity).
  reflexivity.
Qed.

(** C6, as the code has it. With a credential, when the response parses
    as a JSON value other than [null] whose [dependentVar] is absent or not
    truthy, or whose [independentVars] is absent or not an array,
    [getVariableSuggestions] throws the [Error] whose message is the fixed
    text followed by the message of the error of shape; when both checks
    pass, the value is returned.  The response
    [{"independentVars":["price"]}] fails the check, and an object with an
    empty array of [independentVars] passes it. *)
Theorem suggestions_of_invalid_shape (headers : list string)
    (sampleData : list DataRow) (log : list Event) (text : string) (v : JsValue) :
  keyMissing API_KEY = false ->
  generateContent (suggestReq headers sampleData) = Resolved (Some text) ->
  JSON.parse (Str.trim text) = inl v ->
  v <> JsNull ->
  (Js.ToBoolean (Js.field v "dependentVar") = false
   \/ Js.isArray (Js.field v "independentVars") = false ->
   fst (suggest headers sampleData log)
     = Throw (newError (suggestionsErrorPrefix ++ shapeMessage)))
  /\ (Js.ToBoolean (Js.field v "dependentVar") = true
      /\ Js.isArray (Js.field v "independentVars") = true ->
      fst (suggest headers sampleData log) = Return v)
  /\ JSON.parse (Str.trim (Str.lit "{'independentVars':['price']}"))
       = inl (JsObject [("independentVars", JsArray [JsString "price"])])
  /\ Js.ToBoolean
       (Js.field (JsObject [("independentVars", JsArray [JsString "price"])])
          "dependentVar") = false
  /\ shapeValid (JsObject [("dependentVar", JsString "sales");
                           ("independentVars", JsArray [])]) = true.
Proof.
  intros K G P N. rewrite (suggest_resolved _ _ _ _ K G), P.
  assert (Js.get engine v "dependentVar" = Return (Js.field v "dependentVar")) as Read.
  { destruct v; try reflexivity; [|congruence].
    exfalso. exact (JSONFacts.parse_not_undefined _ P). }
  rewrite Read. unfold shapeValid.
  split; [|split; [|split; [|split]]].
  - intros [T|A].
    + rewrite T. reflexivity.
    + rewrite A, andb_false_r. reflexivity.
  - intros [T A]. rewrite T, A. reflexivity.
  - vm_compute. reflexivity.
  - reflexivity.
  - reflexivity.
Qed.

(** C7. With a credential, when the text of the response, trimmed, is not
    JSON, [getVariableSuggestions] throws, and the message of what it
    throws is the fixed text followed by the message of the [SyntaxError]
    of [JSON.parse], so it contains it.  The text [not json] is such a
    text. *)
Theorem suggestions_of_invalid_json (headers : list string)
    (sampleData : list DataRow) (log : list Event) (text : string) (offset : nat) :
  keyMissing API_KEY = false ->
  generateContent (suggestReq headers sampleData) = Resolved (Some text) ->
  JSON.parse (Str.trim text) = inr offset ->
  fst (suggest headers sampleData log)
    = Throw (newError (suggestionsErrorPrefix
                       ++ syntaxErrorMessage engine (Str.trim text) offset))
  /\ Str.includes
       (suggestionsErrorPrefix ++ syntaxErrorMessage engine (Str.trim text) offset)
       (syntaxErrorMessage engine (Str.trim text) offset)
  /\ JSON.parse (Str.trim "not json") = inr 1.
Proof.
  intros K G P. rewrite (suggest_resolved _ _ _ _ K G), P.
  split; [reflexivity|]. split; [apply includes_suffix|vm_compute; reflexivity].
Qed.

(** *** The sample in the prompt *)

(** C8. With a credential and a sample of more than five rows, the one
    request that [getVariableSuggestions] sends carries the prompt built on
    the serialization of the first five rows, which are five and leave
    some rows out, and it is the request that the first five rows alone
    give; the one request that [getDatasetInsights] sends carries the
    prompt built on the serialization of the sample as it was given, and
    no other serialization gives that prompt.  Each prompt has its
    serialization written in it, and the prompt of
    [getVariableSuggestions] is given by no other serialization of five
    first rows. *)
Theorem sample_in_the_prompts (headers : list string) (stats : DescriptiveStats)
    (sampleData : list DataRow) (log : list Event) :
  keyMissing API_KEY = false ->
  5 < length sampleData ->
  filter isNetwork (snd (suggest headers sampleData log))
    = (filter isNetwork log ++ [Network (suggestReq headers sampleData)])%list
  /\ contents (suggestReq headers sampleData)
      = Prompt.suggestions (Str.join ", " headers) (stringifyRows (firstn 5 sampleData))
  /\ length (firstn 5 sampleData) = 5
  /\ sampleData = (firstn 5 sampleData ++ skipn 5 sampleData)%list
  /\ skipn 5 sampleData <> []
  /\ suggestReq headers sampleData = suggestReq headers (firstn 5 sampleData)
  /\ filter isNetwork (snd (insights headers stats sampleData log))
      = (filter isNetwork log ++ [Network (insightsReq headers stats sampleData)])%list
  /\ contents (insightsReq headers stats sampleData)
      = Prompt.insights (Str.join ", " headers) (stringifyStats stats)
          (stringifyRows sampleData)
  /\ (forall other,
        contents (insightsReq headers stats other)
          = contents (insightsReq headers stats sampleData) ->
        stringifyRows other = stringifyRows sampleData)
  /\ Str.includes (contents (suggestReq headers sampleData))
       (stringifyRows (firstn 5 sampleData))
  /\ (forall other,
        contents (suggestReq headers other) = contents (suggestReq headers sampleData) ->
        stringifyRows (firstn 5 other) = stringifyRows (firstn 5 sampleData))
  /\ Str.includes (contents (insightsReq headers stats sampleData))
       (stringifyRows sampleData).
Proof.
  intros K L.
  destruct (firstn_5_of_more sampleData L) as (L5 & Split & Rest).
  split; [|split; [|split; [|split; [|split; [|split; [|split; [|split;
    [|split; [|split; [|split]]]]]]]]]];
    [| | | | | | | |intros other; apply insights_prompt_injective| | |].
  - destruct (generateContent (suggestReq headers sampleData)) as [[text|]|error] eqn:G.
    + rewrite (suggest_resolved _ _ _ _ K G).
      destruct (JSON.parse (Str.trim text)) as [v|offset].
      * destruct (Js.get engine v "dependentVar");
          [destruct (shapeValid v)|]; unfold rethrown; cbn [snd];
          rewrite filter_app; reflexivity.
      * unfold rethrown; cbn [snd]. rewrite filter_app. reflexivity.
    + rewrite (suggest_without_text _ _ _ K G). unfold rethrown; cbn [snd].
      rewrite filter_app. reflexivity.
    + rewrite (suggest_rejected _ _ _ _ K G). unfold rethrown; cbn [snd].
      rewrite filter_app. reflexivity.
  - unfold suggestionsRequest. cbn [contents]. rewrite slice_0_5. reflexivity.
  - exact L5.
  - exact Split.
  - exact Rest.
  - unfold suggestionsRequest. rewrite !slice_0_5, firstn_firstn. reflexivity.
  - rewrite (insights_run _ _ _ _ K).
    destruct (generateContent (insightsReq headers stats sampleData));
      cbn [snd]; rewrite filter_app; reflexivity.
  - reflexivity.
  - unfold suggestionsRequest. cbn [contents]. rewrite slice_0_5.
    unfold Prompt.suggestions.
    do 3 apply includes_after. apply includes_before, includes_self.
  - intros other H. unfold suggestionsRequest in H. cbn [contents] in H.
    rewrite !slice_0_5 in H. apply suggestions_prompt_injective in H. exact H.
  - unfold insightsRequest. cbn [contents]. unfold Prompt.insights.
    do 5 apply includes_after. apply includes_before, includes_self.
Qed.

(** *** What is returned *)

(** C9, as the code has it. Whenever [getVariableSuggestions] returns, what
    it returns is the value that [JSON.parse] read from the trimmed text of
    the response, as it is, with every property the response carried: an
    object whose [dependentVar] is truthy and whose [independentVars] is an
    array. *)
Theorem suggestions_returns_parsed_value (headers : list string)
    (sampleData : list DataRow) (log : list Event) (v : JsValue) :
  fst (suggest headers sampleData log) = Return v ->
  keyMissing API_KEY = false
  /\ (exists props, v = JsObject props)
  /\ exists text,
       generateContent (suggestReq headers sampleData) = Resolved (Some text)
       /\ JSON.parse (Str.trim text) = inl v
       /\ Js.ToBoolean (Js.field v "dependentVar") = true
       /\ Js.isArray (Js.field v "independentVars") = true.
Proof.
  intros R.
  destruct (keyMissing API_KEY) eqn:K.
  { unfold getVariableSuggestions in R. rewrite K in R. discriminate. }
  split; [reflexivity|].
  destruct (generateContent (suggestReq headers sampleData)) as [[text|]|error] eqn:G.
  - rewrite (suggest_resolved _ _ _ _ K G) in R.
    destruct (JSON.parse (Str.trim text)) as [x|offset] eqn:P; [|rethrown_absurd R].
    destruct (Js.get engine x "dependentVar"); [|rethrown_absurd R].
    destruct (shapeValid x) eqn:V; [|rethrown_absurd R].
    cbn [fst] in R. inversion R; subst x.
    unfold shapeValid in V. apply andb_prop in V. destruct V as [V1 V2].
    split.
    + destruct v; try discriminate. eexists; reflexivity.
    + exists text. repeat split; assumption.
  - rewrite (suggest_without_text _ _ _ K G) in R. rethrown_absurd R.
  - rewrite (suggest_rejected _ _ _ _ K G) in R. rethrown_absurd R.
Qed.

(** C10. With a credential, when the response parses as a value whose
    [dependentVar] is truthy, of whatever type, and whose
    [independentVars] is an array, of whatever elements,
    [getVariableSuggestions] returns that value, after its one request,
    and throws no error of shape. *)
Theorem suggestions_checks_truthiness_only (headers : list string)
    (sampleData : list DataRow) (log : list Event) (text : string) (v : JsValue) :
  keyMissing API_KEY = false ->
  generateContent (suggestReq headers sampleData) = Resolved (Some text) ->
  JSON.parse (Str.trim text) = inl v ->
  Js.ToBoolean (Js.field v "dependentVar") = true ->
  Js.isArray (Js.field v "independentVars") = true ->
  suggest headers sampleData log
    = (Return v, (log ++ [Network (suggestReq headers sampleData)])%list).
Proof.
  intros K G P T A. rewrite (suggest_resolved _ _ _ _ K G), P.
  unfold shapeValid. rewrite T, A.
  destruct v; try reflexivity; discriminate.
Qed.

End Claims.

(** ** The properties on a table of text

    Each property that has a premise, at an input that meets it. *)

(** Without a key, the text about the key is returned and nothing is
    sent. *)
Lemma insights_without_credential_witness :
  keyMissing None = true
  /\ getDatasetInsights None (Sample.answers "unused") Sample.stringifyStats
       Sample.stringifyRows Sample.headers tt Sample.rows6 []
     = (Return (Some missingKeyText), []).
Proof.
  split; [reflexivity|].
  exact (proj1 (insights_without_credential None (Sample.answers "unused")
                  Sample.stringifyStats Sample.stringifyRows Sample.headers tt
                  Sample.rows6 [] eq_refl)).
Defined.

(** With an empty key, the error about the key is thrown and nothing is
    sent. *)
Lemma suggestions_without_credential_witness :
  keyMissing (Some "") = true
  /\ getVariableSuggestions v8 (Some "") (Sample.answers "unused")
       Sample.stringifyRows Sample.headers Sample.rows6 []
     = (Throw (newError "La clave API de Gemini no está configurada."), []).
Proof.
  split; [reflexivity|].
  exact (proj1 (suggestions_without_credential v8 (Some "") (Sample.answers "unused")
                  Sample.stringifyRows Sample.headers Sample.rows6 [] eq_refl)).
Defined.

(** A failed fetch comes back as the text of [getDatasetInsights]. *)
Lemma insights_returns_failures_witness :
  keyMissing (Some "key") = false
  /\ Sample.fails (ErrorObject "TypeError" "fetch failed")
       (insightsRequest Sample.stringifyStats Sample.stringifyRows Sample.headers tt
          Sample.rows6)
     = Rejected (ErrorObject "TypeError" "fetch failed")
  /\ detailsOf (ErrorObject "TypeError" "fetch failed") = Return "fetch failed"
  /\ fst (getDatasetInsights (Some "key")
            (Sample.fails (ErrorObject "TypeError" "fetch failed"))
            Sample.stringifyStats Sample.stringifyRows Sample.headers tt Sample.rows6 [])
     = Return (Some (insightsErrorPrefix ++ "fetch failed")).
Proof.
  split; [reflexivity|]. split; [reflexivity|]. split; [reflexivity|].
  exact (proj1 (proj2 (insights_returns_failures (Some "key")
                         (Sample.fails (ErrorObject "TypeError" "fetch failed"))
                         Sample.stringifyStats Sample.stringifyRows Sample.headers tt
                         Sample.rows6 [])
                  (ErrorObject "TypeError" "fetch failed") "fetch failed"
                  eq_refl eq_refl eq_refl)).
Defined.

(** A rejection with a value that is no [Error] is thrown again with its
    rendering, after the request and the line on the console. *)
Lemma suggestions_failures_rethrown_witness :
  keyMissing (Some "key") = false
  /\ RaisedInside v8 (Sample.fails (OtherValue "503"))
       (suggestionsRequest Sample.stringifyRows Sample.headers Sample.rows6)
       (OtherValue "503")
  /\ detailsOf (OtherValue "503") = Return "503"
  /\ getVariableSuggestions v8 (Some "key") (Sample.fails (OtherValue "503"))
       Sample.stringifyRows Sample.headers Sample.rows6 []
     = (Throw (newError (suggestionsErrorPrefix ++ "503")),
        [Network (suggestionsRequest Sample.stringifyRows Sample.headers Sample.rows6);
         ConsoleError "Error calling Gemini API for suggestions:" (OtherValue "503")]).
Proof.
  assert (RaisedInside v8 (Sample.fails (OtherValue "503"))
            (suggestionsRequest Sample.stringifyRows Sample.headers Sample.rows6)
            (OtherValue "503")) as R
    by (apply TransportFailure; reflexivity).
  split; [reflexivity|]. split; [exact R|]. split; [reflexivity|].
  exact (proj1 (suggestions_failures_rethrown v8 (Some "key")
                  (Sample.fails (OtherValue "503")) Sample.stringifyRows
                  Sample.headers Sample.rows6 [])
           eq_refl (OtherValue "503") "503" R eq_refl).
Defined.

(** The response that names [sales], on the service that answers it. *)
Lemma suggestions_of_sales_response_witness :
  keyMissing (Some "key") = false
  /\ fst (getVariableSuggestions v8 (Some "key")
            (Sample.answers
               (Str.lit "{'dependentVar':'sales','independentVars':['price','ad_spend']}"))
            Sample.stringifyRows Sample.headers Sample.rows6 [])
     = Return (JsObject [("dependentVar", JsString "sales");
                         ("independentVars", JsArray [JsString "price"; JsString "ad_spend"])]).
Proof.
  split; [reflexivity|].
  exact (suggestions_of_sales_response v8 (Some "key")
           (Sample.answers
              (Str.lit "{'dependentVar':'sales','independentVars':['price','ad_spend']}"))
           Sample.stringifyRows Sample.headers Sample.rows6 [] eq_refl eq_refl).
Defined.

(** The response without [dependentVar] throws the error of shape. *)
Lemma suggestions_of_invalid_shape_witness :
  keyMissing (Some "key") = false
  /\ JSON.parse (Str.trim (Str.lit "{'independentVars':['price']}"))
     = inl (JsObject [("independentVars", JsArray [JsString "price"])])
  /\ JsObject [("independentVars", JsArray [JsString "price"])] <> JsNull
  /\ fst (getVariableSuggestions v8 (Some "key")
            (Sample.answers (Str.lit "{'independentVars':['price']}"))
            Sample.stringifyRows Sample.headers Sample.rows6 [])
     = Throw (newError
                "Error al obtener sugerencias de la IA. Detalles: La respuesta de la IA no tiene el formato esperado.").
Proof.
  assert (JSON.parse (Str.trim (Str.lit "{'independentVars':['price']}"))
          = inl (JsObject [("independentVars", JsArray [JsString "price"])])) as P
    by (vm_compute; reflexivity).
  assert (JsObject [("independentVars", JsArray [JsString "price"])] <> JsNull) as N
    by discriminate.
  split; [reflexivity|]. split; [exact P|]. split; [exact N|].
  apply (proj1 (suggestions_of_invalid_shape v8 (Some "key")
                  (Sample.answers (Str.lit "{'independentVars':['price']}"))
                  Sample.stringifyRows Sample.headers Sample.rows6 []
                  (Str.lit "{'independentVars':['price']}")
                  (JsObject [("independentVars", JsArray [JsString "price"])])
                  eq_refl eq_refl P N)).
  left. reflexivity.
Defined.

(** The response [not json] throws the error of [JSON.parse], with V8's
    wording. *)
Lemma suggestions_of_invalid_json_witness :
  keyMissing (Some "key") = false
  /\ JSON.parse (Str.trim "not json") = inr 1
  /\ fst (getVariableSuggestions v8 (Some "key") (Sample.answers "not json")
            Sample.stringifyRows Sample.headers Sample.rows6 [])
     = Throw (newError
                "Error al obtener sugerencias de la IA. Detalles: Unexpected token o in JSON at position 1").
Proof.
  assert (JSON.parse (Str.trim "not json") = inr 1) as P by (vm_compute; reflexivity).
  split; [reflexivity|]. split; [exact P|].
  exact (proj1 (suggestions_of_invalid_json v8 (Some "key") (Sample.answers "not json")
                  Sample.stringifyRows Sample.headers Sample.rows6 [] "not json" 1
                  eq_refl eq_refl P)).
Defined.

(** Six rows: five in the request for suggestions, six in the prompt for
    insights. *)
Lemma sample_in_the_prompts_witness :
  keyMissing (Some "key") = false
  /\ 5 < length Sample.rows6
  /\ suggestionsRequest Sample.stringifyRows Sample.headers Sample.rows6
     = suggestionsRequest Sample.stringifyRows Sample.headers (firstn 5 Sample.rows6)
  /\ contents (insightsRequest Sample.stringifyStats Sample.stringifyRows
                Sample.headers tt Sample.rows6)
     = Prompt.insights "price, sales" "{}" (Sample.stringifyRows Sample.rows6).
Proof.
  assert (5 < length Sample.rows6) as L by (simpl; lia).
  pose proof (sample_in_the_prompts v8 (Some "key") (Sample.answers "{}")
                Sample.stringifyStats Sample.stringifyRows Sample.headers tt
                Sample.rows6 [] eq_refl L) as (_ & _ & _ & _ & _ & Same & _ & Whole & _).
  split; [reflexivity|]. split; [exact L|]. split; [exact Same|exact Whole].
Defined.

(** A returned value is the parsed one, here with its third property. *)
Lemma suggestions_returns_parsed_value_witness :
  fst (getVariableSuggestions v8 (Some "key")
         (Sample.answers
            (Str.lit " {'dependentVar':'sales','independentVars':['price'],'note':'x'} "))
         Sample.stringifyRows Sample.headers Sample.rows6 [])
    = Return (JsObject [("dependentVar", JsString "sales");
                        ("independentVars", JsArray [JsString "price"]);
                        ("note", JsString "x")])
  /\ keyMissing (Some "key") = false.
Proof.
  assert (fst (getVariableSuggestions v8 (Some "key")
                 (Sample.answers
                    (Str.lit " {'dependentVar':'sales','independentVars':['price'],'note':'x'} "))
                 Sample.stringifyRows Sample.headers Sample.rows6 [])
          = Return (JsObject [("dependentVar", JsString "sales");
                              ("independentVars", JsArray [JsString "price"]);
                              ("note", JsString "x")])) as R
    by (vm_compute; reflexivity).
  split; [exact R|].
  exact (proj1 (suggestions_returns_parsed_value v8 (Some "key") _ _ _ _ _ _ R)).
Defined.

(** A number as [dependentVar] and elements that are not strings pass. *)
Lemma suggestions_checks_truthiness_only_witness :
  keyMissing (Some "key") = false
  /\ JSON.parse (Str.trim (Str.lit "{'dependentVar':42,'independentVars':[1,null,{'a':true}]}"))
     = inl (JsObject [("dependentVar", JsNumber (mkDecimal 42 0));
                      ("independentVars",
                       JsArray [JsNumber (mkDecimal 1 0); JsNull;
                                JsObject [("a", JsBoolean true)]])])
  /\ fst (getVariableSuggestions v8 (Some "key")
            (Sample.answers
               (Str.lit "{'dependentVar':42,'independentVars':[1,null,{'a':true}]}"))
            Sample.stringifyRows Sample.headers Sample.rows6 [])
     = Return (JsObject [("dependentVar", JsNumber (mkDecimal 42 0));
                         ("independentVars",
                          JsArray [JsNumber (mkDecimal 1 0); JsNull;
                                   JsObject [("a", JsBoolean true)]])]).
Proof.
  assert (JSON.parse (Str.trim (Str.lit "{'dependentVar':42,'independentVars':[1,null,{'a':true}]}"))
          = inl (JsObject [("dependentVar", JsNumber (mkDecimal 42 0));
                           ("independentVars",
                            JsArray [JsNumber (mkDecimal 1 0); JsNull;
                                     JsObject [("a", JsBoolean true)]])])) as P
    by (vm_compute; reflexivity).
  split; [reflexivity|]. split; [exact P|].
  exact (f_equal fst
           (suggestions_checks_truthiness_only v8 (Some "key")
              (Sample.answers
                 (Str.lit "{'dependentVar':42,'independentVars':[1,null,{'a':true}]}"))
              Sample.stringifyRows Sample.headers Sample.rows6 []
              (Str.lit "{'dependentVar':42,'independentVars':[1,null,{'a':true}]}")
              _ eq_refl eq_refl P eq_refl eq_refl)).
Defined.

(** ** Two runs on a rejection that cannot be written *)

(** The call rejected with [Object.create(null)]: the handler of
    [getDatasetInsights] writes on the console and then throws, where a
    text was to be returned. *)
Lemma insights_throws_on_bare_object :
  keyMissing (Some "key") = false
  /\ Sample.fails bareObject
       (insightsRequest Sample.stringifyStats Sample.stringifyRows Sample.headers tt
          Sample.rows6)
     = Rejected bareObject
  /\ getDatasetInsights (Some "key") (Sample.fails bareObject)
       Sample.stringifyStats Sample.stringifyRows Sample.headers tt Sample.rows6 []
     = (Throw (ErrorObject "TypeError" "Cannot convert object to primitive value"),
        [Network (insightsRequest Sample.stringifyStats Sample.stringifyRows
                    Sample.headers tt Sample.rows6);
         ConsoleError "Error calling Gemini API:" bareObject]).
Proof. repeat split; reflexivity. Qed.

(** The same rejection in [getVariableSuggestions]: it is raised inside
    the [try] block and caught, and what is thrown is the [TypeError] of
    the handler, whose message has not the fixed text in front. *)
Lemma suggestions_throws_bare_type_error :
  RaisedInside v8 (Sample.fails bareObject)
    (suggestionsRequest Sample.stringifyRows Sample.headers Sample.rows6) bareObject
  /\ fst (getVariableSuggestions v8 (Some "key") (Sample.fails bareObject)
            Sample.stringifyRows Sample.headers Sample.rows6 [])
     = Throw (ErrorObject "TypeError" "Cannot convert object to primitive value")
  /\ Str.startsWith "Cannot convert object to primitive value" suggestionsErrorPrefix
     = false.
Proof.
  split; [apply TransportFailure; reflexivity|]. split; reflexivity.
Qed.

(** ** Two runs at the edge of the check *)

(** The response [null] parses, has no [dependentVar], and what is thrown
    carries the message of the [TypeError] of the read, not that of the
    error of shape. *)
Lemma null_response_is_no_shape_error :
  JSON.parse (Str.trim "null") = inl JsNull
  /\ Js.ToBoolean (Js.field JsNull "dependentVar") = false
  /\ fst (getVariableSuggestions v8 (Some "key") (Sample.answers "null")
            Sample.stringifyRows Sample.headers Sample.rows6 [])
     = Throw (newError
                "Error al obtener sugerencias de la IA. Detalles: Cannot read properties of null (reading 'dependentVar')")
  /\ fst (getVariableSuggestions v8 (Some "key") (Sample.answers "null")
            Sample.stringifyRows Sample.headers Sample.rows6 [])
     <> Throw (newError (suggestionsErrorPrefix ++ shapeMessage)).
Proof.
  split; [vm_compute; reflexivity|]. split; [reflexivity|].
  split; [vm_compute; reflexivity|].
  vm_compute. discriminate.
Qed.

(** A response that passes the check with a third property is returned
    with it. *)
Lemma extra_field_is_returned :
  fst (getVariableSuggestions v8 (Some "key")
         (Sample.answers
            (Str.lit "{'dependentVar':'sales','independentVars':['price'],'note':'x'}"))
         Sample.stringifyRows Sample.headers Sample.rows6 [])
    = Return (JsObject [("dependentVar", JsString "sales");
                        ("independentVars", JsArray [JsString "price"]);
                        ("note", JsString "x")])
  /\ onlySuggestionFields
       (JsObject [("dependentVar", JsString "sales");
                  ("independentVars", JsArray [JsString "price"]);
                  ("note", JsString "x")]) = false.
Proof.
  split; [vm_compute; reflexivity|reflexivity].
Qed.

(** ** More runs *)

(** The sixth row is in the prompt of [getDatasetInsights] and not in that
    of [getVariableSuggestions]. *)
Example sixth_row_in_insights_prompt :
  contents (insightsRequest Sample.stringifyStats Sample.stringifyRows
              Sample.headers tt Sample.rows6)
    <> contents (insightsRequest Sample.stringifyStats Sample.stringifyRows
                   Sample.headers tt (firstn 5 Sample.rows6))
  /\ contents (suggestionsRequest Sample.stringifyRows Sample.headers Sample.rows6)
     = contents (suggestionsRequest Sample.stringifyRows Sample.headers
                   (firstn 5 Sample.rows6)).
Proof.
  split; [|reflexivity].
  intros H. apply (f_equal String.length) in H. vm_compute in H. discriminate.
Qed.

(** A [dependentVar] that is an object, and elements that are not strings. *)
Example object_as_dependentVar :
  fst (getVariableSuggestions v8 (Some "key")
         (Sample.answers (Str.lit "{'dependentVar':{},'independentVars':[true, 2.5]}"))
         Sample.stringifyRows Sample.headers Sample.rows6 [])
    = Return (JsObject [("dependentVar", JsObject []);
                        ("independentVars",
                         JsArray [JsBoolean true; JsNumber (mkDecimal 25 (-1))])]).
Proof. vm_compute. reflexivity. Qed.

(** A [dependentVar] that is the empty string, zero, or [false] fails the
    check. *)
Example falsy_dependentVar :
  shapeValid (JsObject [("dependentVar", JsString ""); ("independentVars", JsArray [])]) = false
  /\ shapeValid (JsObject [("dependentVar", JsNumber (mkDecimal 0 0));
                           ("independentVars", JsArray [])]) = false
  /\ shapeValid (JsObject [("dependentVar", JsBoolean false);
                           ("independentVars", JsArray [])]) = false
  /\ shapeValid (JsObject [("dependentVar", JsString "sales");
                           ("independentVars", JsString "price")]) = false.
Proof. repeat split; reflexivity. Qed.

(** [trim] removes the whitespace around a response before it is parsed. *)
Example trimmed_before_parsing :
  fst (getVariableSuggestions v8 (Some "key")
         (Sample.answers
            (Sample.nl ++ Str.lit "  {'dependentVar':'sales','independentVars':[]}" ++ Sample.nl))
         Sample.stringifyRows Sample.headers Sample.rows6 [])
    = Return (JsObject [("dependentVar", JsString "sales"); ("independentVars", JsArray [])]).
Proof. vm_compute. reflexivity. Qed.

(** * More of the module *)

(** ** [trim] and blank text *)

Module TrimFacts.

Import Str.

Lemma append_assoc (a b c : string) : (a ++ b) ++ c = a ++ b ++ c.
Proof. induction a as [|x a IH]; simpl; [reflexivity|rewrite IH; reflexivity]. Qed.

Lemma rev_onto_acc (s acc1 acc2 : string) :
  rev_onto s acc1 ++ acc2 = rev_onto s (acc1 ++ acc2).
Proof.
  revert acc1. induction s as [|c s IH]; intros acc1; simpl; [reflexivity|].
  rewrite IH. reflexivity.
Qed.

Lemma rev_onto_append (a b acc : string) :
  rev_onto (a ++ b) acc = rev_onto b (rev_onto a acc).
Proof.
  revert acc. induction a as [|c a IH]; intros acc; simpl; [reflexivity|apply IH].
Qed.

Lemma rev_append (a b : string) : rev (a ++ b) = rev b ++ rev a.
Proof.
  unfold rev. rewrite rev_onto_append.
  rewrite (rev_onto_acc b "" (rev_onto a "")). reflexivity.
Qed.

Lemma blank_rev_onto (s acc : string) :
  blank (rev_onto s acc) = blank s && blank acc.
Proof.
  revert acc. induction s as [|c s IH]; intros acc; simpl; [reflexivity|].
  rewrite IH. simpl. destruct (ws1 c), (blank s), (blank acc); reflexivity.
Qed.

Lemma blank_rev (s : string) : blank (rev s) = blank s.
Proof. unfold rev. rewrite blank_rev_onto. simpl. apply andb_true_r. Qed.

Lemma trimStart_blank (w s : string) : blank w = true -> trimStart (w ++ s) = trimStart s.
Proof.
  induction w as [|c w IH]; intros B; [reflexivity|].
  simpl in B. apply andb_prop in B. destruct B as [C B].
  simpl. rewrite C. apply IH. exact B.
Qed.

Lemma trimStartRev_blank (w s : string) :
  blank w = true -> trimStartRev (w ++ s) = trimStartRev s.
Proof.
  induction w as [|c w IH]; intros B; [reflexivity|].
  simpl in B. apply andb_prop in B. destruct B as [C B].
  simpl. rewrite C. apply IH. exact B.
Qed.

Lemma trimEnd_blank (s w : string) : blank w = true -> trimEnd (s ++ w) = trimEnd s.
Proof.
  intros B. unfold trimEnd. rewrite rev_append.
  rewrite trimStartRev_blank by (rewrite blank_rev; exact B). reflexivity.
Qed.

(** A one-byte whitespace is no part of a longer one. *)

Lemma ws1_code (c : ascii) : ws1 c = true -> (code c <= 32)%N.
Proof.
  unfold ws1. cbv zeta. intros H. apply orb_prop in H. destruct H as [H|H].
  - apply andb_prop in H. destruct H as [_ H]. apply N.leb_le in H. lia.
  - apply N.eqb_eq in H. lia.
Qed.

Lemma ws2_second (c1 c2 : ascii) : ws1 c2 = true -> ws2 c1 c2 = false.
Proof.
  intros H. apply ws1_code in H. unfold ws2.
  replace (code c2 =? 160)%N with false by (symmetry; apply N.eqb_neq; lia).
  apply andb_false_r.
Qed.

Lemma ws3_second (c1 c2 c3 : ascii) : ws1 c2 = true -> ws3 c1 c2 c3 = false.
Proof.
  intros H. apply ws1_code in H. unfold ws3. cbv zeta.
  replace (code c2 =? 154)%N with false by (symmetry; apply N.eqb_neq; lia).
  replace (code c2 =? 128)%N with false by (symmetry; apply N.eqb_neq; lia).
  replace (code c2 =? 129)%N with false by (symmetry; apply N.eqb_neq; lia).
  replace (code c2 =? 187)%N with false by (symmetry; apply N.eqb_neq; lia).
  rewrite !andb_false_r. reflexivity.
Qed.

Lemma ws3_third (c1 c2 c3 : ascii) : ws1 c3 = true -> ws3 c1 c2 c3 = false.
Proof.
  intros H. apply ws1_code in H. unfold ws3. cbv zeta.
  replace (code c3 =? 128)%N with false by (symmetry; apply N.eqb_neq; lia).
  replace (128 <=? code c3)%N with false by (symmetry; apply N.leb_gt; lia).
  replace (code c3 =? 168)%N with false by (symmetry; apply N.eqb_neq; lia).
  replace (code c3 =? 169)%N with false by (symmetry; apply N.eqb_neq; lia).
  replace (code c3 =? 175)%N with false by (symmetry; apply N.eqb_neq; lia).
  replace (code c3 =? 159)%N with false by (symmetry; apply N.eqb_neq; lia).
  replace (code c3 =? 191)%N with false by (symmetry; apply N.eqb_neq; lia).
  rewrite !andb_false_r. reflexivity.
Qed.

Lemma trim_blank_after_upto (n : nat) :
  forall s w, String.length s <= n -> blank w = true -> trim (s ++ w) = trim s.
Proof.
  induction n as [|n IH]; intros s w Ln B.
  - destruct s; [|simpl in Ln; lia].
    simpl append. unfold trim.
    rewrite <- (append_empty_r w) at 1.
    rewrite trimStart_blank by exact B. reflexivity.
  - destruct s as [|c1 [|c2 [|c3 r3]]].
    + simpl append. unfold trim.
      rewrite <- (append_empty_r w) at 1.
      rewrite trimStart_blank by exact B. reflexivity.
    + (* one character *)
      unfold trim. simpl append. simpl trimStart.
      destruct (ws1 c1) eqn:W1.
      * change (trimStart w) with (trimStart ("" ++ w)).
        apply (IH "" w); [simpl; lia|exact B].
      * destruct w as [|d1 [|d2 w2]].
        -- reflexivity.
        -- simpl in B. apply andb_prop in B. destruct B as [D1 _].
           rewrite (ws2_second c1 d1 D1).
           apply (trimEnd_blank (String c1 "") (String d1 "")).
           simpl. rewrite D1. reflexivity.
        -- simpl in B. apply andb_prop in B. destruct B as [D1 B].
           rewrite (ws2_second c1 d1 D1), (ws3_second c1 d1 d2 D1).
           apply (trimEnd_blank (String c1 "") (String d1 (String d2 w2))).
           simpl. rewrite D1. exact B.
    + (* two characters *)
      unfold trim. simpl append. simpl trimStart.
      destruct (ws1 c1) eqn:W1.
      * apply (IH (String c2 "") w); [simpl in *; lia|exact B].
      * destruct (ws2 c1 c2) eqn:W2.
        -- change (trimStart w) with (trimStart ("" ++ w)).
           apply (IH "" w); [simpl; lia|exact B].
        -- destruct w as [|d1 w1].
           ++ reflexivity.
           ++ simpl in B. apply andb_prop in B. destruct B as [D1 B].
              rewrite (ws3_third c1 c2 d1 D1).
              apply (trimEnd_blank (String c1 (String c2 "")) (String d1 w1)).
              simpl. rewrite D1. exact B.
    + (* three characters and more *)
      unfold trim. simpl append. simpl trimStart.
      destruct (ws1 c1) eqn:W1.
      * apply (IH (String c2 (String c3 r3)) w); [simpl in *; lia|exact B].
      * destruct (ws2 c1 c2) eqn:W2.
        -- apply (IH (String c3 r3) w); [simpl in *; lia|exact B].
        -- destruct (ws3 c1 c2 c3) eqn:W3.
           ++ apply (IH r3 w); [simpl in *; lia|exact B].
           ++ apply (trimEnd_blank (String c1 (String c2 (String c3 r3))) w B).
Qed.

Lemma trim_blank_after (s w : string) : blank w = true -> trim (s ++ w) = trim s.
Proof. apply (trim_blank_after_upto (String.length s)). lia. Qed.

Lemma trim_blank_before (w s : string) : blank w = true -> trim (w ++ s) = trim s.
Proof. intros B. unfold trim. rewrite trimStart_blank by exact B. reflexivity. Qed.

Lemma trim_padded (before text after : string) :
  blank before = true -> blank after = true ->
  trim (before ++ text ++ after) = trim text.
Proof.
  intros B A. rewrite trim_blank_before by exact B. apply trim_blank_after. exact A.
Qed.

Lemma trim_blank (w : string) : blank w = true -> trim w = "".
Proof.
  intros B. rewrite <- (append_empty_r w). rewrite trim_blank_before by exact B.
  reflexivity.
Qed.

End TrimFacts.

(** ** Logs, texts and shapes *)

Lemma networkCalls_app (a b : list Event) :
  networkCalls (a ++ b) = networkCalls a + networkCalls b.
Proof. unfold networkCalls. rewrite filter_app, length_app. reflexivity. Qed.

Lemma join_includes (sep : string) (items : list string) (x : string) :
  In x items -> Str.includes (Str.join sep items) x.
Proof.
  induction items as [|y [|z rest] IH]; intros I.
  - destruct I.
  - destruct I as [E|[]]. subst. apply includes_self.
  - destruct I as [E|I].
    + subst. change (Str.join sep (x :: z :: rest))
        with (x ++ sep ++ Str.join sep (z :: rest)).
      apply includes_before. apply includes_self.
    + change (Str.join sep (y :: z :: rest))
        with (y ++ sep ++ Str.join sep (z :: rest)).
      apply includes_after, includes_after. apply IH. exact I.
Qed.

Lemma lookup_In (name : string) (props : list (string * JsValue)) (x : JsValue) :
  Js.lookup name props = Some x -> In (name, x) props.
Proof.
  induction props as [|[k y] rest IH]; simpl; intros H; [discriminate|].
  destruct (k =? name) eqn:E.
  - apply String.eqb_eq in E. inversion H; subst. left. reflexivity.
  - right. apply IH. exact H.
Qed.

(** What conforms to the schema that [getVariableSuggestions] declares is
    an object whose [dependentVar] is a string and whose [independentVars]
    is an array. *)
Lemma conforms_suggestions (v : JsValue) :
  conforms (responseSchema suggestionsConfig) v = true ->
  exists props s items,
    v = JsObject props
    /\ Js.field v "dependentVar" = JsString s
    /\ Js.field v "independentVars" = JsArray items.
Proof.
  destruct v as [| |b|d|str|elements|props]; try discriminate.
  cbn [suggestionsConfig responseSchema conforms]. intros H.
  apply andb_prop in H. destruct H as [Required Declared].
  cbn [forallb] in Required.
  destruct (Js.lookup "dependentVar" props) as [x|] eqn:Lx; [|discriminate].
  destruct (Js.lookup "independentVars" props) as [y|] eqn:Ly; [|discriminate].
  rewrite forallb_forall in Declared.
  pose proof (Declared _ (lookup_In _ _ _ Lx)) as Cx.
  pose proof (Declared _ (lookup_In _ _ _ Ly)) as Cy.
  cbn in Cx, Cy.
  destruct x; try discriminate. destruct y; try discriminate.
  exists props. eexists. eexists.
  cbn [Js.field]. rewrite Lx, Ly. repeat split.
Qed.

Section More.

Variable engine : Engine.
Variable API_KEY : option string.
Variable generateContent : Request -> Outcome.
Context {DataRow DescriptiveStats : Type}.
Variable stringifyStats : DescriptiveStats -> string.
Variable stringifyRows : list DataRow -> string.

Local Abbreviation insights :=
  (getDatasetInsights API_KEY generateContent stringifyStats stringifyRows).
Local Abbreviation insightsReq := (insightsRequest stringifyStats stringifyRows).
Local Abbreviation suggest :=
  (getVariableSuggestions engine API_KEY generateContent stringifyRows).
Local Abbreviation suggestReq := (suggestionsRequest stringifyRows).

(** The requests that a call adds to the log. *)

Lemma insights_requests (headers : list string) (stats : DescriptiveStats)
    (sampleData : list DataRow) (log : list Event) :
  filter isNetwork (snd (insights headers stats sampleData log))
    = (filter isNetwork log
       ++ if keyMissing API_KEY then []
          else [Network (insightsReq headers stats sampleData)])%list.
Proof.
  destruct (keyMissing API_KEY) eqn:K.
  - unfold getDatasetInsights. rewrite K. cbn [ret snd]. rewrite app_nil_r. reflexivity.
  - rewrite (insights_run API_KEY generateContent stringifyStats stringifyRows _ _ _ _ K).
    destruct (generateContent (insightsReq headers stats sampleData));
      cbn [snd]; rewrite filter_app; reflexivity.
Qed.

Lemma suggest_requests (headers : list string) (sampleData : list DataRow)
    (log : list Event) :
  filter isNetwork (snd (suggest headers sampleData log))
    = (filter isNetwork log
       ++ if keyMissing API_KEY then []
          else [Network (suggestReq headers sampleData)])%list.
Proof.
  destruct (keyMissing API_KEY) eqn:K.
  - unfold getVariableSuggestions. rewrite K. cbn [throw snd]. rewrite app_nil_r. reflexivity.
  - destruct (generateContent (suggestReq headers sampleData)) as [[text|]|error] eqn:G.
    + rewrite (suggest_resolved engine API_KEY generateContent stringifyRows _ _ _ _ K G).
      destruct (JSON.parse (Str.trim text)) as [v|offset].
      * destruct (Js.get engine v "dependentVar");
          [destruct (shapeValid v)|]; unfold rethrown; cbn [snd];
          rewrite filter_app; reflexivity.
      * unfold rethrown; cbn [snd]. rewrite filter_app. reflexivity.
    + rewrite (suggest_without_text engine API_KEY generateContent stringifyRows _ _ _ K G).
      unfold rethrown; cbn [snd]. rewrite filter_app. reflexivity.
    + rewrite (suggest_rejected engine API_KEY generateContent stringifyRows _ _ _ _ K G).
      unfold rethrown; cbn [snd]. rewrite filter_app. reflexivity.
Qed.

(** What is raised inside can be written, when what the remote call
    rejects with can. *)
Lemma raised_inside_renders (headers : list string) (sampleData : list DataRow)
    (cause : Thrown) :
  (forall error raised,
      generateContent (suggestReq headers sampleData) = Rejected error ->
      detailsOf error <> Throw raised) ->
  RaisedInside engine generateContent (suggestReq headers sampleData) cause ->
  exists details, detailsOf cause = Return details.
Proof.
  intros Renders R. destruct R as [error G|G|text offset G P|text G P|text v G P N V];
    try (eexists; reflexivity).
  destruct (detailsOf error) as [details|raised] eqn:D.
  - exists details. reflexivity.
  - exfalso. exact (Renders error raised G D).
Qed.

(** *** [getDatasetInsights] with a credential *)

(** X1. With a credential, [getDatasetInsights] gives back the text of the
    response as it is, neither trimmed nor parsed, and [undefined] when the
    response has none, after its one request and with nothing written on
    the console; the console gets its line exactly when the call was
    rejected, and the line carries the error that rejected it. *)
Theorem insights_text_as_received (headers : list string) (stats : DescriptiveStats)
    (sampleData : list DataRow) (log : list Event) :
  keyMissing API_KEY = false ->
  (forall text,
      generateContent (insightsReq headers stats sampleData) = Resolved text ->
      insights headers stats sampleData log
        = (Return text, (log ++ [Network (insightsReq headers stats sampleData)])%list))
  /\ (forall error,
        generateContent (insightsReq headers stats sampleData) = Rejected error
        <-> snd (insights headers stats sampleData log)
            = (log ++ [Network (insightsReq headers stats sampleData);
                       ConsoleError "Error calling Gemini API:" error])%list).
Proof.
  intros K.
  rewrite (insights_run API_KEY generateContent stringifyStats stringifyRows _ _ _ _ K).
  split.
  - intros text G. rewrite G. reflexivity.
  - intros error. split.
    + intros G. rewrite G. reflexivity.
    + destruct (generateContent (insightsReq headers stats sampleData)) as [text|error'];
        cbn [snd]; intros E; apply app_inv_head in E.
      * discriminate.
      * inversion E. reflexivity.
Qed.

(** *** One request for one call *)

(** X2. Whatever the remote service does, a call of either operation sends
    one request when there is a credential and none when there is not:
    nothing is sent twice, and nothing is tried again. *)
Theorem one_request_per_call (headers : list string) (stats : DescriptiveStats)
    (sampleData : list DataRow) (log : list Event) :
  networkCalls (snd (insights headers stats sampleData log))
    = networkCalls log + (if keyMissing API_KEY then 0 else 1)
  /\ networkCalls (snd (suggest headers sampleData log))
     = networkCalls log + (if keyMissing API_KEY then 0 else 1).
Proof.
  unfold networkCalls. rewrite insights_requests, suggest_requests, !length_app.
  destruct (keyMissing API_KEY); split; reflexivity.
Qed.

(** X3. The two operations called one after the other, with a credential,
    send their two requests in that order: the second call takes nothing
    from the first, whatever the first one met. *)
Theorem calls_in_sequence (headers : list string) (stats : DescriptiveStats)
    (sampleData : list DataRow) (log : list Event) :
  keyMissing API_KEY = false ->
  filter isNetwork
    (snd (suggest headers sampleData (snd (insights headers stats sampleData log))))
    = (filter isNetwork log
       ++ [Network (insightsReq headers stats sampleData);
           Network (suggestReq headers sampleData)])%list.
Proof.
  intros K. rewrite suggest_requests, insights_requests, K.
  rewrite <- app_assoc. reflexivity.
Qed.

(** *** What [getVariableSuggestions] leaves in the log *)

(** X4. When [getVariableSuggestions] returns, the log has grown by the
    request and nothing else; when it throws with a credential, the log
    has grown by the request and one line on the console, which carries
    the error that was caught; what is thrown is the [Error] whose message
    is the fixed text followed by the details of that error when they can
    be written, and what writing them throws when they cannot. *)
Theorem suggestions_log (headers : list string) (sampleData : list DataRow)
    (log : list Event) :
  (forall v,
      fst (suggest headers sampleData log) = Return v ->
      snd (suggest headers sampleData log)
        = (log ++ [Network (suggestReq headers sampleData)])%list)
  /\ (forall e,
        keyMissing API_KEY = false ->
        fst (suggest headers sampleData log) = Throw e ->
        exists cause,
          RaisedInside engine generateContent (suggestReq headers sampleData) cause
          /\ snd (suggest headers sampleData log)
             = (log ++ [Network (suggestReq headers sampleData);
                        ConsoleError "Error calling Gemini API for suggestions:" cause])%list
          /\ match detailsOf cause with
             | Return details => e = newError (suggestionsErrorPrefix ++ details)
             | Throw raised => e = raised
             end).
Proof.
  destruct (keyMissing API_KEY) eqn:K.
  { split.
    - intros v R. unfold getVariableSuggestions in R. rewrite K in R. discriminate.
    - intros e Absurd. discriminate. }
  destruct (suggest_ends engine API_KEY generateContent stringifyRows headers sampleData
              log K) as [(v' & E)|(cause & R & E)]; rewrite E.
  - split; [intros v _; reflexivity|intros e _ T; discriminate].
  - split.
    + intros v Ret.
      destruct (rethrown_throws log (suggestReq headers sampleData) cause) as (e & T).
      rewrite T in Ret. discriminate.
    + intros e _ T. exists cause. split; [exact R|]. split; [reflexivity|].
      unfold rethrown in T. cbn [fst] in T.
      destruct (detailsOf cause); injection T as <-; reflexivity.
Qed.

(** X5. When what the remote call rejects with can be written, a thrown
    error tells whether the credential was missing: it is the [Error]
    about the key exactly when [!API_KEY], and with a credential it is an
    [Error] whose message has the fixed text in front. *)
Theorem missing_credential_is_told_apart (headers : list string)
    (sampleData : list DataRow) (log : list Event) (e : Thrown) :
  (forall error raised,
      generateContent (suggestReq headers sampleData) = Rejected error ->
      detailsOf error <> Throw raised) ->
  fst (suggest headers sampleData log) = Throw e ->
  (keyMissing API_KEY = true <-> e = newError missingKeyMessage)
  /\ (keyMissing API_KEY = false ->
      exists details, e = newError (suggestionsErrorPrefix ++ details)).
Proof.
  intros Renders T.
  destruct (keyMissing API_KEY) eqn:K.
  - unfold getVariableSuggestions in T. rewrite K in T. cbn in T. inversion T.
    split; [split; reflexivity|discriminate].
  - destruct (suggest_ends engine API_KEY generateContent stringifyRows headers sampleData
                log K) as [(v & E)|(cause & R & E)]; rewrite E in T.
    + discriminate.
    + destruct (raised_inside_renders headers sampleData cause Renders R) as (details & D).
      unfold rethrown in T. rewrite D in T. cbn [fst] in T. injection T as <-.
      split.
      * split; [discriminate|]. intros Same. inversion Same.
      * intros _. exists details. reflexivity.
Qed.

(** *** Small samples and blank responses *)

(** X6. A sample of at most five rows, the empty one too, goes whole into
    the request of [getVariableSuggestions]: [slice(0, 5)] leaves it as it
    is, and the prompt is built on its serialization. *)
Theorem small_sample_goes_whole (headers : list string) (sampleData : list DataRow) :
  length sampleData <= 5 ->
  Js.slice 0 5 sampleData = sampleData
  /\ contents (suggestReq headers sampleData)
     = Prompt.suggestions (Str.join ", " headers) (stringifyRows sampleData).
Proof.
  intros L.
  assert (Js.slice 0 5 sampleData = sampleData) as Whole
    by (rewrite slice_0_5; apply firstn_all2; exact L).
  split; [exact Whole|].
  unfold suggestionsRequest. cbn [contents]. rewrite Whole. reflexivity.
Qed.

(** X7. With a credential, a response whose text is empty or blank is no
    JSON: [getVariableSuggestions] throws the error of [JSON.parse] on the
    empty text, failing at offset 0, after the request and the line on the
    console. *)
Theorem blank_response_is_rethrown (headers : list string) (sampleData : list DataRow)
    (log : list Event) (text : string) :
  keyMissing API_KEY = false ->
  generateContent (suggestReq headers sampleData) = Resolved (Some text) ->
  blank text = true ->
  suggest headers sampleData log
    = (Throw (newError (suggestionsErrorPrefix ++ syntaxErrorMessage engine "" 0)),
       (log ++ [Network (suggestReq headers sampleData);
                ConsoleError "Error calling Gemini API for suggestions:"
                  (ErrorObject "SyntaxError" (syntaxErrorMessage engine "" 0))])%list).
Proof.
  intros K G B.
  rewrite (suggest_resolved engine API_KEY generateContent stringifyRows _ _ _ _ K G).
  rewrite (TrimFacts.trim_blank text B). reflexivity.
Qed.

(** *** What the prompts hold *)

(** X8. Every header is written in both prompts, and so are the
    serializations that they are built on: the statistics and the whole
    sample in the prompt of [getDatasetInsights], the first five rows in
    that of [getVariableSuggestions]. *)
Theorem prompts_hold_their_inputs (headers : list string) (stats : DescriptiveStats)
    (sampleData : list DataRow) :
  (forall header, In header headers ->
      Str.includes (contents (insightsReq headers stats sampleData)) header
      /\ Str.includes (contents (suggestReq headers sampleData)) header)
  /\ Str.includes (contents (insightsReq headers stats sampleData)) (stringifyStats stats)
  /\ Str.includes (contents (insightsReq headers stats sampleData))
       (stringifyRows sampleData)
  /\ Str.includes (contents (suggestReq headers sampleData))
       (stringifyRows (firstn 5 sampleData)).
Proof.
  unfold insightsRequest, suggestionsRequest. cbn [contents].
  rewrite slice_0_5. unfold Prompt.insights, Prompt.suggestions.
  split; [|split; [|split]].
  - intros header I. pose proof (join_includes ", " headers header I) as J.
    split; apply includes_after, includes_before; exact J.
  - do 3 apply includes_after. apply includes_before, includes_self.
  - do 5 apply includes_after. apply includes_before, includes_self.
  - do 3 apply includes_after. apply includes_before, includes_self.
Qed.

(** *** The declared schema and the check *)

(** X9. With a credential, a response that has the shape declared to the
    remote service in [responseSchema], with a [dependentVar] that is not
    the empty string, passes the check and is returned as it is; so the
    check refuses no response of the declared shape but the one with an
    empty [dependentVar]. *)
Theorem declared_shape_is_returned (headers : list string) (sampleData : list DataRow)
    (log : list Event) (text : string) (v : JsValue) :
  keyMissing API_KEY = false ->
  generateContent (suggestReq headers sampleData) = Resolved (Some text) ->
  JSON.parse (Str.trim text) = inl v ->
  conforms (responseSchema suggestionsConfig) v = true ->
  (Js.field v "dependentVar" <> JsString "" ->
   suggest headers sampleData log
     = (Return v, (log ++ [Network (suggestReq headers sampleData)])%list))
  /\ (Js.field v "dependentVar" = JsString "" ->
      fst (suggest headers sampleData log)
        = Throw (newError (suggestionsErrorPrefix ++ shapeMessage))).
Proof.
  intros K G P C.
  destruct (conforms_suggestions v C) as (props & s & items & Ev & Dv & Iv).
  rewrite (suggest_resolved engine API_KEY generateContent stringifyRows _ _ _ _ K G), P.
  subst v. cbn [Js.get]. unfold shapeValid. rewrite Dv, Iv. cbn [Js.ToBoolean Js.isArray].
  split.
  - intros N. destruct (s =? "") eqn:E.
    + apply String.eqb_eq in E. subst s. congruence.
    + reflexivity.
  - intros E. inversion E. subst s. reflexivity.
Qed.

(** *** The warning when the module is loaded *)

(** X10. The module warns on the console when it is loaded exactly when
    the operations will send nothing: the warning is there if and only if
    no call of [getDatasetInsights] adds a request to the log, and if and
    only if no call of [getVariableSuggestions] does; and with or without
    it the client is constructed, with the key as it was read. *)
Theorem load_warning_foretells_no_request (stats : DescriptiveStats) :
  ((exists message, In (ConsoleWarn message) (loadModule API_KEY))
   <-> (forall headers sampleData log,
          networkCalls (snd (insights headers stats sampleData log)) = networkCalls log))
  /\ ((exists message, In (ConsoleWarn message) (loadModule API_KEY))
      <-> (forall headers sampleData log,
             networkCalls (snd (suggest headers sampleData log)) = networkCalls log))
  /\ In (NewClient API_KEY) (loadModule API_KEY).
Proof.
  assert ((exists message, In (ConsoleWarn message) (loadModule API_KEY))
          <-> keyMissing API_KEY = true) as Warned.
  { unfold loadModule. destruct (keyMissing API_KEY); split.
    - reflexivity.
    - intros _. eexists. left. reflexivity.
    - intros (message & [E|[]]). discriminate.
    - discriminate. }
  split; [|split].
  - rewrite Warned. split.
    + intros K headers sampleData log.
      unfold networkCalls. rewrite insights_requests, K, app_nil_r. reflexivity.
    + intros Silent. specialize (Silent [] [] []).
      unfold networkCalls in Silent. rewrite insights_requests, length_app in Silent.
      destruct (keyMissing API_KEY); [reflexivity|simpl in Silent; lia].
  - rewrite Warned. split.
    + intros K headers sampleData log.
      unfold networkCalls. rewrite suggest_requests, K, app_nil_r. reflexivity.
    + intros Silent. specialize (Silent [] [] []).
      unfold networkCalls in Silent. rewrite suggest_requests, length_app in Silent.
      destruct (keyMissing API_KEY); [reflexivity|simpl in Silent; lia].
  - unfold loadModule. apply in_or_app. right. left. reflexivity.
Qed.

End More.

(** *** Two remote services compared *)

(** X11. Blank text around the answer changes nothing: with a credential,
    when one remote service answers a text and another the same text with
    one-byte whitespace before and after it, [getVariableSuggestions] ends
    in the same way on both, with the same log. *)
Theorem padding_changes_nothing (engine : Engine) (API_KEY : option string)
    (generateContent padded : Request -> Outcome) {DataRow : Type}
    (stringifyRows : list DataRow -> string) (headers : list string)
    (sampleData : list DataRow) (log : list Event) (before text after : string) :
  keyMissing API_KEY = false ->
  generateContent (suggestionsRequest stringifyRows headers sampleData)
    = Resolved (Some text) ->
  padded (suggestionsRequest stringifyRows headers sampleData)
    = Resolved (Some (before ++ text ++ after)) ->
  blank before = true ->
  blank after = true ->
  getVariableSuggestions engine API_KEY padded stringifyRows headers sampleData log
    = getVariableSuggestions engine API_KEY generateContent stringifyRows headers
        sampleData log.
Proof.
  intros K G G' B A.
  rewrite (suggest_resolved engine API_KEY generateContent stringifyRows _ _ _ _ K G).
  rewrite (suggest_resolved engine API_KEY padded stringifyRows _ _ _ _ K G').
  rewrite (TrimFacts.trim_padded before text after B A). reflexivity.
Qed.

(** X12. What [getDatasetInsights] returns does not tell a failure from an
    answer: the text returned when the call is rejected, with an error
    whose details can be written, is also returned,
    as it is, when the remote service answers that text, and so is the
    text returned when the credential is missing; the two runs differ by
    the console only. *)
Theorem failure_text_is_in_band (API_KEY : option string)
    (failing answering : Request -> Outcome) {DataRow DescriptiveStats : Type}
    (stringifyStats : DescriptiveStats -> string)
    (stringifyRows : list DataRow -> string) (headers : list string)
    (stats : DescriptiveStats) (sampleData : list DataRow) (log : list Event)
    (error : Thrown) (details : string) :
  keyMissing API_KEY = false ->
  failing (insightsRequest stringifyStats stringifyRows headers stats sampleData)
    = Rejected error ->
  detailsOf error = Return details ->
  (answering (insightsRequest stringifyStats stringifyRows headers stats sampleData)
     = Resolved (Some (insightsErrorPrefix ++ details)) ->
   fst (getDatasetInsights API_KEY failing stringifyStats stringifyRows headers stats
          sampleData log)
     = fst (getDatasetInsights API_KEY answering stringifyStats stringifyRows headers
              stats sampleData log))
  /\ (answering (insightsRequest stringifyStats stringifyRows headers stats sampleData)
       = Resolved (Some missingKeyText) ->
      fst (getDatasetInsights None failing stringifyStats stringifyRows headers stats
             sampleData log)
        = fst (getDatasetInsights API_KEY answering stringifyStats stringifyRows headers
                 stats sampleData log)).
Proof.
  intros K F D. split; intros A.
  - rewrite !(insights_run API_KEY _ stringifyStats stringifyRows _ _ _ _ K), F, A, D.
    reflexivity.
  - rewrite (insights_run API_KEY _ stringifyStats stringifyRows _ _ _ _ K), A.
    reflexivity.
Qed.

(** *** These properties on a table of text *)

(** An answer with blanks around it comes back with them. *)
Lemma insights_text_as_received_witness :
  keyMissing (Some "key") = false
  /\ getDatasetInsights (Some "key") (Sample.answers "  ## Resumen  ")
       Sample.stringifyStats Sample.stringifyRows Sample.headers tt Sample.rows6 []
     = (Return (Some "  ## Resumen  "),
        [Network (insightsRequest Sample.stringifyStats Sample.stringifyRows
                    Sample.headers tt Sample.rows6)]).
Proof.
  split; [reflexivity|].
  exact (proj1 (insights_text_as_received (Some "key") (Sample.answers "  ## Resumen  ")
                  Sample.stringifyStats Sample.stringifyRows Sample.headers tt
                  Sample.rows6 [] eq_refl)
           (Some "  ## Resumen  ") eq_refl).
Defined.

(** Insights, then suggestions: two requests. *)
Lemma calls_in_sequence_witness :
  keyMissing (Some "key") = false
  /\ filter isNetwork
       (snd (getVariableSuggestions v8 (Some "key") (Sample.answers "{}")
               Sample.stringifyRows Sample.headers Sample.rows6
               (snd (getDatasetInsights (Some "key") (Sample.answers "{}")
                       Sample.stringifyStats Sample.stringifyRows Sample.headers tt
                       Sample.rows6 []))))
     = [Network (insightsRequest Sample.stringifyStats Sample.stringifyRows
                   Sample.headers tt Sample.rows6);
        Network (suggestionsRequest Sample.stringifyRows Sample.headers Sample.rows6)].
Proof.
  split; [reflexivity|].
  exact (calls_in_sequence v8 (Some "key") (Sample.answers "{}") Sample.stringifyStats
           Sample.stringifyRows Sample.headers tt Sample.rows6 [] eq_refl).
Defined.

(** A run that returns leaves the request in the log, and no more; a run
    that throws leaves the request and the line on the console. *)
Lemma suggestions_log_witness :
  (fst (getVariableSuggestions v8 (Some "key")
          (Sample.answers (Str.lit "{'dependentVar':'sales','independentVars':[]}"))
          Sample.stringifyRows Sample.headers Sample.rows6 [])
     = Return (JsObject [("dependentVar", JsString "sales");
                         ("independentVars", JsArray [])])
   /\ snd (getVariableSuggestions v8 (Some "key")
             (Sample.answers (Str.lit "{'dependentVar':'sales','independentVars':[]}"))
             Sample.stringifyRows Sample.headers Sample.rows6 [])
      = [Network (suggestionsRequest Sample.stringifyRows Sample.headers Sample.rows6)])
  /\ keyMissing (Some "key") = false
  /\ fst (getVariableSuggestions v8 (Some "key") (Sample.fails (OtherValue "503"))
            Sample.stringifyRows Sample.headers Sample.rows6 [])
     = Throw (newError (suggestionsErrorPrefix ++ "503"))
  /\ exists cause,
       RaisedInside v8 (Sample.fails (OtherValue "503"))
         (suggestionsRequest Sample.stringifyRows Sample.headers Sample.rows6) cause
       /\ snd (getVariableSuggestions v8 (Some "key") (Sample.fails (OtherValue "503"))
                 Sample.stringifyRows Sample.headers Sample.rows6 [])
          = [Network (suggestionsRequest Sample.stringifyRows Sample.headers Sample.rows6);
             ConsoleError "Error calling Gemini API for suggestions:" cause]
       /\ match detailsOf cause with
          | Return details =>
              newError (suggestionsErrorPrefix ++ "503")
                = newError (suggestionsErrorPrefix ++ details)
          | Throw raised => newError (suggestionsErrorPrefix ++ "503") = raised
          end.
Proof.
  assert (fst (getVariableSuggestions v8 (Some "key")
                 (Sample.answers (Str.lit "{'dependentVar':'sales','independentVars':[]}"))
                 Sample.stringifyRows Sample.headers Sample.rows6 [])
          = Return (JsObject [("dependentVar", JsString "sales");
                              ("independentVars", JsArray [])])) as R
    by (vm_compute; reflexivity).
  assert (fst (getVariableSuggestions v8 (Some "key") (Sample.fails (OtherValue "503"))
                 Sample.stringifyRows Sample.headers Sample.rows6 [])
          = Throw (newError (suggestionsErrorPrefix ++ "503"))) as T
    by reflexivity.
  split; [split; [exact R|]|split; [reflexivity|split; [exact T|]]].
  - exact (proj1 (suggestions_log v8 (Some "key")
                    (Sample.answers (Str.lit "{'dependentVar':'sales','independentVars':[]}"))
                    Sample.stringifyRows Sample.headers Sample.rows6 [])
             _ R).
  - exact (proj2 (suggestions_log v8 (Some "key") (Sample.fails (OtherValue "503"))
                    Sample.stringifyRows Sample.headers Sample.rows6 [])
             _ eq_refl T).
Defined.

(** Without a key, what is thrown is the error about the key; with one,
    on a response that is no JSON, it is an error with the fixed text in
    front. *)
Lemma missing_credential_is_told_apart_witness :
  (fst (getVariableSuggestions v8 None (Sample.answers "not json") Sample.stringifyRows
          Sample.headers Sample.rows6 [])
     = Throw (newError missingKeyMessage)
   /\ (keyMissing None = true <-> newError missingKeyMessage = newError missingKeyMessage))
  /\ fst (getVariableSuggestions v8 (Some "key") (Sample.answers "not json")
            Sample.stringifyRows Sample.headers Sample.rows6 [])
     = Throw (newError
                "Error al obtener sugerencias de la IA. Detalles: Unexpected token o in JSON at position 1")
  /\ (keyMissing (Some "key") = true
      <-> newError
            "Error al obtener sugerencias de la IA. Detalles: Unexpected token o in JSON at position 1"
          = newError missingKeyMessage)
  /\ (keyMissing (Some "key") = false ->
      exists details,
        newError
          "Error al obtener sugerencias de la IA. Detalles: Unexpected token o in JSON at position 1"
        = newError (suggestionsErrorPrefix ++ details)).
Proof.
  assert (forall error raised,
             Sample.answers "not json"
               (suggestionsRequest Sample.stringifyRows Sample.headers Sample.rows6)
             = Rejected error ->
             detailsOf error <> Throw raised) as Renders
    by (intros error raised Absurd; discriminate Absurd).
  assert (fst (getVariableSuggestions v8 None (Sample.answers "not json")
                 Sample.stringifyRows Sample.headers Sample.rows6 [])
          = Throw (newError missingKeyMessage)) as T0 by reflexivity.
  assert (fst (getVariableSuggestions v8 (Some "key") (Sample.answers "not json")
                 Sample.stringifyRows Sample.headers Sample.rows6 [])
          = Throw (newError
                     "Error al obtener sugerencias de la IA. Detalles: Unexpected token o in JSON at position 1"))
    as T1 by (vm_compute; reflexivity).
  split; [split; [exact T0|]|split; [exact T1|]].
  - exact (proj1 (missing_credential_is_told_apart v8 None (Sample.answers "not json")
                    Sample.stringifyRows Sample.headers Sample.rows6 [] _ Renders T0)).
  - exact (missing_credential_is_told_apart v8 (Some "key") (Sample.answers "not json")
             Sample.stringifyRows Sample.headers Sample.rows6 [] _ Renders T1).
Defined.

(** Two rows go whole. *)
Lemma small_sample_goes_whole_witness :
  length (firstn 2 Sample.rows6) <= 5
  /\ Js.slice 0 5 (firstn 2 Sample.rows6) = firstn 2 Sample.rows6.
Proof.
  assert (length (firstn 2 Sample.rows6) <= 5) as L by (simpl; lia).
  split; [exact L|].
  exact (proj1 (small_sample_goes_whole Sample.stringifyRows Sample.headers
                  (firstn 2 Sample.rows6) L)).
Defined.

(** A response of spaces and a line feed. *)
Lemma blank_response_is_rethrown_witness :
  keyMissing (Some "key") = false
  /\ blank ("  " ++ Sample.nl ++ " ") = true
  /\ fst (getVariableSuggestions v8 (Some "key")
            (Sample.answers ("  " ++ Sample.nl ++ " "))
            Sample.stringifyRows Sample.headers Sample.rows6 [])
     = Throw (newError
                "Error al obtener sugerencias de la IA. Detalles: Unexpected end of JSON input").
Proof.
  split; [reflexivity|]. split; [reflexivity|].
  exact (f_equal fst
           (blank_response_is_rethrown v8 (Some "key")
              (Sample.answers ("  " ++ Sample.nl ++ " "))
              Sample.stringifyRows Sample.headers Sample.rows6 []
              ("  " ++ Sample.nl ++ " ") eq_refl eq_refl eq_refl)).
Defined.

(** The header [price] is in both prompts. *)
Lemma prompts_hold_their_inputs_witness :
  In "price" Sample.headers
  /\ Str.includes
       (contents (insightsRequest Sample.stringifyStats Sample.stringifyRows
                    Sample.headers tt Sample.rows6)) "price"
  /\ Str.includes
       (contents (suggestionsRequest Sample.stringifyRows Sample.headers Sample.rows6))
       "price".
Proof.
  assert (In "price" Sample.headers) as I by (left; reflexivity).
  split; [exact I|].
  exact (proj1 (prompts_hold_their_inputs Sample.stringifyStats Sample.stringifyRows
                  Sample.headers tt Sample.rows6) "price" I).
Defined.

(** A response of the declared shape is returned. *)
Lemma declared_shape_is_returned_witness :
  keyMissing (Some "key") = false
  /\ conforms (responseSchema suggestionsConfig)
       (JsObject [("dependentVar", JsString "sales");
                  ("independentVars", JsArray [JsString "price"])]) = true
  /\ fst (getVariableSuggestions v8 (Some "key")
            (Sample.answers (Str.lit "{'dependentVar':'sales','independentVars':['price']}"))
            Sample.stringifyRows Sample.headers Sample.rows6 [])
     = Return (JsObject [("dependentVar", JsString "sales");
                         ("independentVars", JsArray [JsString "price"])]).
Proof.
  assert (JSON.parse (Str.trim (Str.lit "{'dependentVar':'sales','independentVars':['price']}"))
          = inl (JsObject [("dependentVar", JsString "sales");
                           ("independentVars", JsArray [JsString "price"])])) as P
    by (vm_compute; reflexivity).
  split; [reflexivity|]. split; [reflexivity|].
  apply (f_equal fst
           (proj1 (declared_shape_is_returned v8 (Some "key")
                     (Sample.answers
                        (Str.lit "{'dependentVar':'sales','independentVars':['price']}"))
                     Sample.stringifyRows Sample.headers Sample.rows6 []
                     (Str.lit "{'dependentVar':'sales','independentVars':['price']}")
                     _ eq_refl eq_refl P eq_refl)
              ltac:(discriminate))).
Defined.

(** The same answer with a line feed before it and spaces after it. *)
Lemma padding_changes_nothing_witness :
  keyMissing (Some "key") = false
  /\ blank Sample.nl = true
  /\ blank "  " = true
  /\ getVariableSuggestions v8 (Some "key")
       (Sample.answers
          (Sample.nl ++ Str.lit "{'dependentVar':'sales','independentVars':[]}" ++ "  "))
       Sample.stringifyRows Sample.headers Sample.rows6 []
     = getVariableSuggestions v8 (Some "key")
         (Sample.answers (Str.lit "{'dependentVar':'sales','independentVars':[]}"))
         Sample.stringifyRows Sample.headers Sample.rows6 [].
Proof.
  split; [reflexivity|]. split; [reflexivity|]. split; [reflexivity|].
  exact (padding_changes_nothing v8 (Some "key")
           (Sample.answers (Str.lit "{'dependentVar':'sales','independentVars':[]}"))
           (Sample.answers
              (Sample.nl ++ Str.lit "{'dependentVar':'sales','independentVars':[]}" ++ "  "))
           Sample.stringifyRows Sample.headers Sample.rows6 []
           Sample.nl (Str.lit "{'dependentVar':'sales','independentVars':[]}") "  "
           eq_refl eq_refl eq_refl eq_refl eq_refl).
Defined.

(** A failed fetch and an answer that reads like one. *)
Lemma failure_text_is_in_band_witness :
  keyMissing (Some "key") = false
  /\ fst (getDatasetInsights (Some "key")
            (Sample.fails (ErrorObject "TypeError" "fetch failed"))
            Sample.stringifyStats Sample.stringifyRows Sample.headers tt Sample.rows6 [])
     = fst (getDatasetInsights (Some "key")
              (Sample.answers (insightsErrorPrefix ++ "fetch failed"))
              Sample.stringifyStats Sample.stringifyRows Sample.headers tt Sample.rows6 []).
Proof.
  split; [reflexivity|].
  exact (proj1 (failure_text_is_in_band (Some "key")
                  (Sample.fails (ErrorObject "TypeError" "fetch failed"))
                  (Sample.answers (insightsErrorPrefix ++ "fetch failed"))
                  Sample.stringifyStats Sample.stringifyRows Sample.headers tt
                  Sample.rows6 [] (ErrorObject "TypeError" "fetch failed")
                  "fetch failed" eq_refl eq_refl eq_refl)
           eq_refl).
Defined.
